(** * MedFlow / VoiceFlow: the intake dialogue, the recording sink and the
      socket endpoint, embedded from the Python sources.

    - [MedFlow/bot.py]: [IntakeProcessor] (the five tool handlers and
      [save_data]) and the registrations made by [main];
    - [VoiceFlow/src/core/voice_assistant.py] and
      [VoiceFlow/web-clients/python/client.py]: [save_audio];
    - [VoiceFlow/src/api/voiceflow_server.py]: [websocket_endpoint].

    Python objects that the handlers mutate (the [OpenAILLMContext] shared by
    the processor, the aggregator and every [FunctionCallParams]) live in one
    store, the [World]; a handler is a computation over that store which may
    raise, and a raise keeps the mutations made before it, as in Python. *)

From stdpp Require Import base option list strings pretty gmap fin_maps.
From Stdlib Require Import ZArith Lia.
From Stdlib.Strings Require Import Byte.

Open Scope string_scope.
Open Scope list_scope.

#[local] Set Warnings "-register-all".

(** ** Python values (what [json.loads] and the tool arguments carry) *)

Inductive pyval : Type :=
  | PNone
  | PBool (b : bool)
  | PInt (z : Z)
  | PStr (s : string)
  | PList (l : list pyval)
  | PDict (d : gmap string pyval).

(** Python exceptions the modelled code can raise. *)
Inductive exn : Type :=
  | KeyError (key : string)
  | TypeError
  | StopAsyncIteration
  | JSONDecodeError
  | OtherError (what : string).

(** [v == s] for a string literal [s]: a value of another type is never equal
    to a [str]. *)
Definition py_eq_str (v : pyval) (s : string) : bool :=
  match v with
  | PStr t => bool_decide (t = s)
  | _ => false
  end.

(** [d[k]] on a value: [KeyError] when the key is absent, [TypeError] when the
    value is not subscriptable by a string. *)
Definition py_getitem (v : pyval) (k : string) : exn + pyval :=
  match v with
  | PDict d => match d !! k with
               | Some x => inr x
               | None => inl (KeyError k)
               end
  | _ => inl TypeError
  end.

(** ** Tool schemas and messages (the dict literals of bot.py) *)

(** The JSON-schema fragments that occur under ["parameters"]. *)
Inductive Schema : Type :=
  | SString (description : string)                (* {"type": "string", "description": ..} *)
  | SArray (items : Schema)                       (* {"type": "array", "items": ..} *)
  | SObject (properties : list (string * Schema)) (* {"type": "object", "properties": {..}} *).

Record FunctionDef : Type := mkFunctionDef {
  name : string;
  description : string;
  parameters : Schema
}.

(** One entry of the list given to [set_tools]. *)
Record Tool : Type := mkTool {
  type_ : string;
  function : FunctionDef
}.

Record Message : Type := mkMessage {
  role : string;
  content : string
}.

Definition tool_name (t : Tool) : string := name (function t).

(** ** The conversation context and the store *)

Record OpenAILLMContext : Type := mkContext {
  messages : list Message;
  tools : list Tool
}.

(** What a handler does to the outside, in program order. *)
Inductive Event : Type :=
  | EPrint (text : string)
  | ELogInfo (text : string) (args : gmap string pyval)
  | EQueueFrame (frame : OpenAILLMContext)           (* llm.queue_frame(OpenAILLMContextFrame(context), DOWNSTREAM) *)
  | EResultCallback (result : option (list Message)) (* await result_callback(result) *).

Record World : Type := mkWorld {
  context : OpenAILLMContext;
  trace : list Event
}.

(** ** Computations that mutate the store and may raise *)

Definition M (A : Type) : Type := World -> World * (exn + A).

Definition raise {A} (e : exn) : M A := fun w => (w, inl e).

#[export] Instance M_ret : MRet M := fun A (a : A) (w : World) => (w, inr a).

(** Sequencing: an exception skips the rest and keeps the store as the
    raising statement left it. *)
#[export] Instance M_bind : MBind M := fun A B (k : A -> M B) (m : M A) (w : World) =>
  match m w with
  | (w', inr a) => k a w'
  | (w', inl e) => (w', inl e)
  end.

Definition lift_result {A} (r : exn + A) : M A :=
  match r with
  | inr a => mret a
  | inl e => raise e
  end.

(** [context.set_tools(ts)]: the list replaces the previous one. *)
Definition set_tools (ts : list Tool) : M unit :=
  fun w => (mkWorld (mkContext (messages (context w)) ts) (trace w), inr tt).

(** [context.add_message(m)]: appended at the end. *)
Definition add_message (m : Message) : M unit :=
  fun w => (mkWorld (mkContext (messages (context w) ++ [m]) (tools (context w))) (trace w), inr tt).

Definition emit (e : Event) : M unit :=
  fun w => (mkWorld (context w) (trace w ++ [e]), inr tt).

(** The frame is built from the context as it is when queued. *)
Definition queue_context_frame : M unit :=
  fun w => emit (EQueueFrame (context w)) w.

Definition print (s : string) : M unit := emit (EPrint s).

(** ** bot.py: the tool schemas *)

Module Tools.

Definition verify_birthday : Tool :=
  mkTool "function"
    (mkFunctionDef "verify_birthday"
       "Verify the patient's birthday to confirm their identity."
       (SObject
          [("birthday",
            SString "The patient's birthdate in YYYY-MM-DD format. Convert any provided format to this standard.")])).

Definition list_prescriptions : Tool :=
  mkTool "function"
    (mkFunctionDef "list_prescriptions"
       "Collect the patient's current prescription medications."
       (SObject
          [("prescriptions",
            SArray (SObject [("medication", SString "The medication name");
                             ("dosage", SString "The prescription dosage")]))])).

Definition list_allergies : Tool :=
  mkTool "function"
    (mkFunctionDef "list_allergies"
       "Collect the patient's allergy information."
       (SObject
          [("allergies",
            SArray (SObject [("name", SString "What the patient is allergic to")]))])).

Definition list_conditions : Tool :=
  mkTool "function"
    (mkFunctionDef "list_conditions"
       "Collect the patient's medical conditions."
       (SObject
          [("conditions",
            SArray (SObject [("name", SString "The patient's medical condition")]))])).

Definition list_visit_reasons : Tool :=
  mkTool "function"
    (mkFunctionDef "list_visit_reasons"
       "Collect the reason for the patient's doctor visit."
       (SObject
          [("visit_reasons",
            SArray (SObject [("name", SString "The patient's reason for visiting the doctor")]))])).

End Tools.

(** ** bot.py: the system instructions *)

Module Prompts.

Definition intro : Message :=
  mkMessage "system"
    "You are Jessica, a professional medical intake assistant for MedFlow. Your role is to collect essential patient information before their doctor visit. You're speaking with Chad Bailey. Address the patient by their first name and maintain a polite, professional demeanor. You're not a medical professional, so avoid providing medical advice. Keep responses concise and focused on information collection. Don't make assumptions about patient data - ask for clarification if responses are unclear. Start by introducing yourself, then ask the patient to confirm their identity by providing their birthday including the year. When they respond, call the verify_birthday function.".

Definition prescriptions : Message :=
  mkMessage "system"
    "Thank the patient for confirming their identity, then ask them to list their current prescriptions. Each prescription should include both the medication name and dosage. Only call the list_prescriptions function when you have complete information.".

Definition birthday_retry : Message :=
  mkMessage "system"
    "The provided birthday is incorrect. Please ask the patient for their birthday again and call the verify_birthday function when they respond.".

Definition allergies : Message :=
  mkMessage "system"
    "Next, ask the patient about their allergies. Once they've provided their allergy information or confirmed they have none, call the list_allergies function.".

Definition conditions : Message :=
  mkMessage "system"
    "Now ask the patient about any medical conditions the doctor should be aware of. Once they've answered, call the list_conditions function.".

Definition visit_reasons : Message :=
  mkMessage "system"
    "Finally, ask the patient the reason for their doctor visit today. Once they answer, call the list_visit_reasons function.".

Definition conclude : Message :=
  mkMessage "system"
    "Thank the patient for completing their intake and conclude the conversation professionally.".

End Prompts.

(** ** bot.py: [IntakeProcessor] *)

(** [FunctionCallParams] as the handlers use it. [params.context] is the one
    context object of the session, the [context] of the [World];
    [params.llm.queue_frame] is [queue_context_frame]. The result callback is
    supplied by the caller of the handler and is not part of bot.py. *)
Record FunctionCallParams : Type := mkParams {
  arguments : gmap string pyval;
  result_callback : option (list Message) -> M unit
}.

(** The reference birthday, the literal of line 97. *)
Definition reference_birthday : string := "1983-01-01".

Module IntakeProcessor.

Definition init : M unit :=
  print "Initializing MedFlow intake processor" ;;
  add_message Prompts.intro ;;
  set_tools [Tools.verify_birthday].

Definition verify_birthday (params : FunctionCallParams) : M unit :=
  birthday ← lift_result (py_getitem (PDict (arguments params)) "birthday") ;
  if py_eq_str birthday reference_birthday then
    set_tools [Tools.list_prescriptions] ;;
    result_callback params (Some [Prompts.prescriptions])
  else
    result_callback params (Some [Prompts.birthday_retry]).

Definition save_data (args : gmap string pyval)
    (result_callback : option (list Message) -> M unit) : M unit :=
  emit (ELogInfo "Saving patient intake data: " args) ;;
  result_callback None.

Definition list_prescriptions (params : FunctionCallParams) : M unit :=
  print "Processing prescription information" ;;
  set_tools [Tools.list_allergies] ;;
  add_message Prompts.allergies ;;
  queue_context_frame ;;
  save_data (arguments params) (result_callback params).

Definition list_allergies (params : FunctionCallParams) : M unit :=
  print "Processing allergy information" ;;
  set_tools [Tools.list_conditions] ;;
  add_message Prompts.conditions ;;
  queue_context_frame ;;
  save_data (arguments params) (result_callback params).

Definition list_conditions (params : FunctionCallParams) : M unit :=
  print "Processing medical conditions" ;;
  set_tools [Tools.list_visit_reasons] ;;
  add_message Prompts.visit_reasons ;;
  queue_context_frame ;;
  save_data (arguments params) (result_callback params).

Definition list_visit_reasons (params : FunctionCallParams) : M unit :=
  print "Processing visit reasons" ;;
  set_tools [] ;;
  add_message Prompts.conclude ;;
  queue_context_frame ;;
  save_data (arguments params) (result_callback params).

End IntakeProcessor.

(** ** bot.py: [main], the registrations and the session *)

Definition handler : Type := FunctionCallParams -> M unit.

(** [llm.register_function(name, handler)], lines 343-347: the service keeps
    the handlers in a dict keyed by function name, for the whole session. *)
Definition registered_functions : gmap string handler :=
  <["list_visit_reasons" := IntakeProcessor.list_visit_reasons]>
  (<["list_conditions" := IntakeProcessor.list_conditions]>
  (<["list_allergies" := IntakeProcessor.list_allergies]>
  (<["list_prescriptions" := IntakeProcessor.list_prescriptions]>
  (<["verify_birthday" := IntakeProcessor.verify_birthday]> ∅)))).

(** [messages = []; context = OpenAILLMContext(messages=messages)]. *)
Definition empty_world : World := mkWorld (mkContext [] []) [].

(** The store once [IntakeProcessor(context)] has run. *)
Definition initial_world : World := fst (IntakeProcessor.init empty_world).

(** Modelled from the spec: the result callback that the pipeline passes in
    [FunctionCallParams] belongs to the framework and is not under src/; it is
    [pipeline_result_callback] below, which records the call and delivers. A
    [ToolResult] carries [outgoingMessages]: they are appended to the
    transcript in order; the result [None] adds nothing (the comment of
    [save_data]: "Return None to prevent adding to context or re-prompting").
    It does not raise. *)
Definition deliver_result (result : option (list Message)) : M unit :=
  match result with
  | Some outgoing => fun w =>
      (mkWorld (mkContext (messages (context w) ++ outgoing) (tools (context w))) (trace w), inr tt)
  | None => mret tt
  end.

(** Modelled from the spec: the framework's result callback (not under
    src/): the call is recorded and the [ToolResult] is delivered to the
    context as [deliver_result] says. *)
Definition pipeline_result_callback (result : option (list Message)) : M unit :=
  emit (EResultCallback result) ;;
  deliver_result result.

(** A result callback whose call ends as [outcome] says, and which leaves the
    context alone: the persistence sink seen from the state machine. *)
Definition sink_callback (outcome : exn + unit) (result : option (list Message)) : M unit :=
  emit (EResultCallback result) ;;
  lift_result outcome.

(** A tool invocation produced by the generation stage. *)
Record ToolCall : Type := mkCall {
  call_name : string;
  call_arguments : gmap string pyval
}.

(** The tool names offered to the generation stage: the context frame carries
    [context.tools], nothing else. *)
Definition permitted_tool_names (ctx : OpenAILLMContext) : list string :=
  tool_name <$> tools ctx.

Definition generation_permits (ctx : OpenAILLMContext) (c : ToolCall) : bool :=
  bool_decide (call_name c ∈ permitted_tool_names ctx).

(** The service runs the handler registered under the call's name; the
    installed tools are not consulted. A name without a handler runs nothing. *)
Definition run_function_call (c : ToolCall) : M unit :=
  match registered_functions !! call_name c with
  | Some h => h (mkParams (call_arguments c) pipeline_result_callback)
  | None => mret tt
  end.

Definition session_step (w : World) (c : ToolCall) : World :=
  fst (run_function_call c w).

(** The stores a session goes through, the first one included. *)
Fixpoint visited (w : World) (calls : list ToolCall) : list World :=
  w :: match calls with
       | [] => []
       | c :: cs => visited (session_step w c) cs
       end.

(** Every call names a tool that was on offer when it was made. *)
Fixpoint permitted_calls (w : World) (calls : list ToolCall) : bool :=
  match calls with
  | [] => true
  | c :: cs => generation_permits (context w) c && permitted_calls (session_step w c) cs
  end.

Inductive reachable : World -> Prop :=
  | reachable_init : reachable initial_world
  | reachable_step w c :
      reachable w -> generation_permits (context w) c = true ->
      reachable (session_step w c).

(** ** Dialogue states: the step a context is at, read off the exposed tool *)

Inductive DialogueState : Type :=
  | AwaitingIdentity
  | CollectingPrescriptions
  | CollectingAllergies
  | CollectingConditions
  | CollectingVisitReasons
  | Complete.

#[export] Instance DialogueState_eq_dec : EqDecision DialogueState.
Proof. solve_decision. Defined.

Definition state_order : list DialogueState :=
  [AwaitingIdentity; CollectingPrescriptions; CollectingAllergies;
   CollectingConditions; CollectingVisitReasons; Complete].

Definition next_state (s : DialogueState) : option DialogueState :=
  match s with
  | AwaitingIdentity => Some CollectingPrescriptions
  | CollectingPrescriptions => Some CollectingAllergies
  | CollectingAllergies => Some CollectingConditions
  | CollectingConditions => Some CollectingVisitReasons
  | CollectingVisitReasons => Some Complete
  | Complete => None
  end.

Definition rank (s : DialogueState) : nat :=
  match s with
  | AwaitingIdentity => 0
  | CollectingPrescriptions => 1
  | CollectingAllergies => 2
  | CollectingConditions => 3
  | CollectingVisitReasons => 4
  | Complete => 5
  end.

(** The tool list that each step exposes. *)
Definition exposed_tools (s : DialogueState) : list Tool :=
  match s with
  | AwaitingIdentity => [Tools.verify_birthday]
  | CollectingPrescriptions => [Tools.list_prescriptions]
  | CollectingAllergies => [Tools.list_allergies]
  | CollectingConditions => [Tools.list_conditions]
  | CollectingVisitReasons => [Tools.list_visit_reasons]
  | Complete => []
  end.

(** The step whose tool a handler serves. *)
Definition handler_state (fname : string) : option DialogueState :=
  if decide (fname = "verify_birthday") then Some AwaitingIdentity
  else if decide (fname = "list_prescriptions") then Some CollectingPrescriptions
  else if decide (fname = "list_allergies") then Some CollectingAllergies
  else if decide (fname = "list_conditions") then Some CollectingConditions
  else if decide (fname = "list_visit_reasons") then Some CollectingVisitReasons
  else None.

(** The step of a context: no tool is [Complete], one tool is the step that
    tool belongs to. *)
Definition dialogue_state (ctx : OpenAILLMContext) : option DialogueState :=
  match tools ctx with
  | [] => Some Complete
  | [t] => handler_state (tool_name t)
  | _ => None
  end.

(** A run of states with adjacent repetitions removed. *)
Fixpoint dedup_adjacent (l : list DialogueState) : list DialogueState :=
  match l with
  | [] => []
  | x :: l' =>
      match l' with
      | y :: _ => if decide (x = y) then dedup_adjacent l' else x :: dedup_adjacent l'
      | [] => [x]
      end
  end.

(** A walk from [s]: every move stays or goes to the next step. *)
Inductive walk : DialogueState -> list DialogueState -> Prop :=
  | walk_end s : walk s [s]
  | walk_stay s l : walk s l -> walk s (s :: l)
  | walk_next s s' l : next_state s = Some s' -> walk s' l -> walk s (s :: l).

(** ** Results of code that may raise but has no store *)

#[export] Instance result_ret : MRet (sum exn) := fun A (a : A) => inr a.
#[export] Instance result_bind : MBind (sum exn) := fun A B (k : A -> exn + B) (r : exn + A) =>
  match r with
  | inr a => k a
  | inl e => inl e
  end.

(** ** Python's [wave] writer, as [save_audio] drives it *)

Module Wave.

Definition byte_of_Z (z : Z) : byte :=
  default Byte.x00 (Byte.of_N (Z.to_N (z mod 256))).

(** [struct.pack('<L', z)] is [le_bytes 4 z], ['<H'] is [le_bytes 2 z]. *)
Fixpoint le_bytes (width : nat) (z : Z) : list byte :=
  match width with
  | O => []
  | S n => byte_of_Z z :: le_bytes n (z / 256)
  end.

Definition fits (width : nat) (z : Z) : bool :=
  bool_decide (0 <= z < 256 ^ Z.of_nat width)%Z.

(** The 44 bytes that precede the frames of a PCM file. *)
Definition header (sampwidth nchannels framerate datalength : Z) : list byte :=
  String.list_byte_of_string "RIFF" ++ le_bytes 4 (36 + datalength) ++
  String.list_byte_of_string "WAVE" ++ String.list_byte_of_string "fmt " ++
  le_bytes 4 16 ++ le_bytes 2 1 ++ le_bytes 2 nchannels ++ le_bytes 4 framerate ++
  le_bytes 4 (nchannels * framerate * sampwidth) ++
  le_bytes 2 (nchannels * sampwidth) ++ le_bytes 2 (sampwidth * 8) ++
  String.list_byte_of_string "data" ++ le_bytes 4 datalength.

(** [setsampwidth], [setnchannels], [setframerate], [writeframes] and the
    close of the [with] block: the setters reject a sample width outside
    1..4, a channel count below 1 and a frame rate of 0 or less, and the
    close that follows then fails on the first parameter left unset, whose
    error is the one that leaves the block; packing the header rejects a
    field that does not fit its width. *)
Definition write (sampwidth nchannels framerate : Z) (frames : list byte) : exn + list byte :=
  let datalength := Z.of_nat (length frames) in
  if negb (bool_decide (1 <= sampwidth <= 4)%Z) then
    inl (OtherError "# channels not specified")
  else if bool_decide (nchannels < 1)%Z then inl (OtherError "# channels not specified")
  else if bool_decide (framerate <= 0)%Z then inl (OtherError "sampling rate not specified")
  else if fits 4 (36 + datalength) && fits 2 nchannels && fits 4 framerate
          && fits 4 (nchannels * framerate * sampwidth) && fits 2 (nchannels * sampwidth)
       then inr (header sampwidth nchannels framerate datalength ++ frames)%list
       else inl (OtherError "struct.error").

End Wave.

(** ** voice_assistant.py and client.py: [save_audio] *)

(** The clock reading, the files and the log that [save_audio] touches. *)
Record FileWorld : Type := mkFileWorld {
  now : string;                      (* datetime.datetime.now().strftime('%Y%m%d_%H%M%S') *)
  files : gmap string (list byte);
  opened : list string;              (* names passed to aiofiles.open(.., "wb"), in order *)
  log : list string
}.

Definition save_audio (server_name : string) (audio : list byte)
    (sample_rate num_channels : Z) (w : FileWorld) : FileWorld * (exn + unit) :=
  if bool_decide (0 < length audio) then
    let timestamp := now w in
    let filename := server_name +:+ "_recording_" +:+ timestamp +:+ ".wav" in
    match Wave.write 2 num_channels sample_rate audio with
    | inr buffer =>
        (mkFileWorld (now w) (<[filename := buffer]> (files w)) (opened w ++ [filename])%list
           (log w ++ ["Audio recording saved: " +:+ filename])%list, inr tt)
    | inl e => (w, inl e)
    end
  else
    (mkFileWorld (now w) (files w) (opened w) (log w ++ ["No audio data to save"])%list, inr tt).

(** client.py, lines 69-85: the same body, with [client_name]. *)
Definition client_save_audio (client_name : string) (audio : list byte)
    (sample_rate num_channels : Z) (w : FileWorld) : FileWorld * (exn + unit) :=
  if bool_decide (0 < length audio) then
    let timestamp := now w in
    let filename := client_name +:+ "_recording_" +:+ timestamp +:+ ".wav" in
    match Wave.write 2 num_channels sample_rate audio with
    | inr buffer =>
        (mkFileWorld (now w) (<[filename := buffer]> (files w)) (opened w ++ [filename])%list
           (log w ++ ["Audio recording saved: " +:+ filename])%list, inr tt)
    | inl e => (w, inl e)
    end
  else
    (mkFileWorld (now w) (files w) (opened w) (log w ++ ["No audio data to save"])%list, inr tt).

(** The [on_audio_data] handler of the server: the name carries the port of
    the session's socket. *)
Definition on_audio_data (port : nat) (audio : list byte)
    (sample_rate num_channels : Z) (w : FileWorld) : FileWorld * (exn + unit) :=
  let server_name := "voiceflow_server_" +:+ pretty port in
  save_audio server_name audio sample_rate num_channels w.

(** ** voiceflow_server.py: [websocket_endpoint] *)

(** The call [run_voice_assistant(websocket, stream_sid, call_sid, testing)]:
    the socket goes on with the messages not yet read. *)
Record VoiceAssistantCall : Type := mkVoiceAssistantCall {
  remaining : list string;
  stream_sid : pyval;
  call_sid : pyval;
  testing : bool
}.

Section Endpoint.

(** [json.loads]. *)
Variable json_loads : string -> exn + pyval.

(** [start_data.__anext__()]: the next text message, or the end of the
    iteration when the peer has closed. *)
Definition anext (incoming : list string) : exn + (string * list string) :=
  match incoming with
  | m :: rest => inr (m, rest)
  | [] => inl StopAsyncIteration
  end.

(** [websocket.accept()] and the two [print] calls do not bear on the result
    and are left out; [incoming] is what [websocket.iter_text()] will yield. *)
Definition websocket_endpoint (incoming : list string) (app_state_testing : bool)
    : exn + VoiceAssistantCall :=
  '(_, incoming1) ← anext incoming ;
  '(second, incoming2) ← anext incoming1 ;
  call_data ← json_loads second ;
  start ← py_getitem call_data "start" ;
  stream_sid ← py_getitem start "streamSid" ;
  start' ← py_getitem call_data "start" ;
  call_sid ← py_getitem start' "callSid" ;
  mret (mkVoiceAssistantCall incoming2 stream_sid call_sid app_state_testing).

End Endpoint.

(** ** Stores and branches named in the statements *)

(** The store that [set_tools ts] leaves. *)
Definition with_tools (ts : list Tool) (w : World) : World :=
  mkWorld (mkContext (messages (context w)) ts) (trace w).

(** The store of a collection handler at the moment it calls [save_data]:
    greeting printed, tools replaced, instruction added, frame queued, and
    the arguments logged. *)
Definition advanced (greeting : string) (ts : list Tool) (instruction : Message)
    (args : gmap string pyval) (w : World) : World :=
  let ctx := mkContext (messages (context w) ++ [instruction]) ts in
  mkWorld ctx
    (trace w ++ [EPrint greeting; EQueueFrame ctx;
                 ELogInfo "Saving patient intake data: " args]).

(** The two arms of the [if] of [verify_birthday], lines 99-139 and 142-149. *)
Definition verified_branch (params : FunctionCallParams) : M unit :=
  set_tools [Tools.list_prescriptions] ;;
  result_callback params (Some [Prompts.prescriptions]).

Definition retry_branch (params : FunctionCallParams) : M unit :=
  result_callback params (Some [Prompts.birthday_retry]).

(** The collection handlers with the tools and the instruction each installs. *)
Definition collection_handlers : list (handler * (string * list Tool * Message)) :=
  [(IntakeProcessor.list_prescriptions,
      ("Processing prescription information", [Tools.list_allergies], Prompts.allergies));
   (IntakeProcessor.list_allergies,
      ("Processing allergy information", [Tools.list_conditions], Prompts.conditions));
   (IntakeProcessor.list_conditions,
      ("Processing medical conditions", [Tools.list_visit_reasons], Prompts.visit_reasons));
   (IntakeProcessor.list_visit_reasons,
      ("Processing visit reasons", [], Prompts.conclude))].

(** A call answered in place: the handler returns, the tools are the ones
    that were exposed, and one more message (the clarification) is in the
    context. *)
Definition handled_in_place (h : handler) (args : gmap string pyval) (w : World) : Prop :=
  let r := h (mkParams args pipeline_result_callback) w in
  snd r = inr tt
  /\ tools (context (fst r)) = tools (context w)
  /\ exists clarification, messages (context (fst r)) = messages (context w) ++ [clarification].

(** Calls used as examples. *)
Definition wrong_birthday_call : ToolCall :=
  mkCall "verify_birthday" {["birthday" := PStr "1990-05-05"]}.

Definition right_birthday_call : ToolCall :=
  mkCall "verify_birthday" {["birthday" := PStr "1983-01-01"]}.

(** A whole intake, with one wrong birthday first. *)
Definition full_session : list ToolCall :=
  [wrong_birthday_call;
   right_birthday_call;
   mkCall "list_prescriptions" ∅;
   mkCall "list_allergies" ∅;
   mkCall "list_conditions" ∅;
   mkCall "list_visit_reasons" ∅].

(** The ["start"] object of an example session-start message; the call
    identifier is not even a string. *)
Definition example_start : gmap string pyval :=
  {["streamSid" := PStr "MZ18ad3ab5a668481ce02b83e7395059f0"; "callSid" := PInt 42]}.

(** ** The store at the end of a session *)

(** The calls of a session run one after the other on the shared store. *)
Definition run_session (w : World) (calls : list ToolCall) : World :=
  fold_left session_step calls w.

(** A call that supplies the reference birthday to [verify_birthday]. *)
Definition supplies_reference_birthday (c : ToolCall) : Prop :=
  call_name c = "verify_birthday"
  /\ call_arguments c !! "birthday" = Some (PStr reference_birthday).

(** ** client.py: the handshake sent by [on_connected] *)

Definition connection_msg : pyval :=
  PDict {["event" := PStr "connected"; "protocol" := PStr "Call"; "version" := PStr "1.0.0"]}.

Definition start_msg (stream_sid call_sid : string) : pyval :=
  PDict {["event" := PStr "start";
          "streamSid" := PStr stream_sid;
          "callSid" := PStr call_sid;
          "start" := PDict {["streamSid" := PStr stream_sid; "callSid" := PStr call_sid]}]}.

(** The two [send_message] calls of [on_connected], lines 167-182, in
    order; [stream_sid] and [call_sid] are the [str(uuid4())] of lines 96-97. *)
Definition on_connected (stream_sid call_sid : string) : list pyval :=
  [connection_msg; start_msg stream_sid call_sid].

(** ** client.py: [get_stream_url_from_twiml] *)

(** An [xml.etree.ElementTree.Element]. *)
Inductive Element : Type :=
  | mkElement (tag : string) (attrib : gmap string string) (children : list Element).

Definition tag (e : Element) : string :=
  match e with mkElement t _ _ => t end.

Definition attrib (e : Element) : gmap string string :=
  match e with mkElement _ a _ => a end.

Definition children (e : Element) : list Element :=
  match e with mkElement _ _ cs => cs end.

(** [Element.iter()]: the element and all elements below it, in document
    order. *)
Fixpoint iter (e : Element) : list Element :=
  match e with
  | mkElement _ _ cs => e :: flat_map iter cs
  end.

(** What the path [.//name] selects from [root]: the elements below [root]
    with that tag, in document order; [root] itself is not among them. *)
Definition findall_descendants (name : string) (root : Element) : list Element :=
  filter (fun e => tag e = name) (flat_map iter (children root)).

(** [root.find(path)]: the first selected element, or [None]. *)
Definition find_descendant (name : string) (root : Element) : option Element :=
  head (findall_descendants name root).

Section Twiml.

(** [ET.fromstring]. *)
Variable fromstring : string -> exn + Element.

(** [stream_element.get("url")] on [None] is an [AttributeError]; on an
    element without the attribute it is [None]. *)
Definition get_stream_url_from_twiml (twiml : string) : exn + option string :=
  root ← fromstring twiml ;
  match find_descendant "Stream" root with
  | Some stream_element => mret (attrib stream_element !! "url")
  | None => inl (OtherError "AttributeError")
  end.

End Twiml.

(** ** Recordings: names and formats used in the statements *)

(** The file name that [save_audio] builds, line 47. *)
Definition recording_filename (name timestamp : string) : string :=
  name +:+ "_recording_" +:+ timestamp +:+ ".wav".

(** A 16-bit PCM format whose header fields fit their widths. *)
Definition pcm16_format_ok (num_channels sample_rate : Z) : Prop :=
  (1 <= num_channels <= 32767)%Z /\ (0 < sample_rate)%Z
  /\ (num_channels * sample_rate * 2 < 2 ^ 32)%Z.

(** A non-empty buffer small enough for the 32-bit length fields. *)
Definition buffer_ok (audio : list byte) : Prop :=
  audio <> [] /\ (36 + Z.of_nat (length audio) < 2 ^ 32)%Z.

(** The WAV bytes of a buffer. *)
Definition wav_of (num_channels sample_rate : Z) (audio : list byte) : list byte :=
  Wave.header 2 num_channels sample_rate (Z.of_nat (length audio)) ++ audio.

(** client.py, [main], lines 216-222: the names of the clients started,
    [f"voiceflow_client_{i}"] for [i] in [range(args.clients)]. *)
Definition client_names (clients : nat) : list string :=
  (fun i => "voiceflow_client_" +:+ pretty i) <$> seq 0 clients.

(** ** runner.py: [configure] *)

(** Python truth of an optional string: [None] and the empty string are
    false. *)
Definition truthy (o : option string) : bool :=
  match o with
  | Some s => negb (bool_decide (s = ""))
  | None => false
  end.

(** [a or b]. *)
Definition py_or (a b : option string) : option string :=
  if truthy a then a else b.

Definition no_url_message : string :=
  "No Daily.co room URL specified. Use the -u/--url option from the command line, or set DAILY_SAMPLE_ROOM_URL in your environment to specify a Daily.co room URL.".

Definition no_key_message : string :=
  "No Daily.co API key specified. Use the -k/--apikey option from the command line, or set DAILY_API_KEY in your environment. Get your API key from https://dashboard.daily.co/developers.".

Section Configure.

(** [DailyRESTHelper(daily_api_key, daily_api_url, ..).get_token(url, expiry)]. *)
Variable get_token : string -> string -> string -> Z -> exn + string.

(** [args_url] and [args_apikey] are [args.url] and [args.apikey] as
    [parse_known_args] leaves them ([None] when the option is absent);
    [environ] is the process environment read by [os.getenv]. *)
Definition configure (args_url args_apikey : option string) (environ : gmap string string)
    : exn + (string * string) :=
  let url := py_or args_url (environ !! "DAILY_SAMPLE_ROOM_URL") in
  let key := py_or args_apikey (environ !! "DAILY_API_KEY") in
  if negb (truthy url) then inl (OtherError no_url_message)
  else if negb (truthy key) then inl (OtherError no_key_message)
  else
    (* past the two checks [url] and [key] are strings *)
    let url := default "" url in
    let key := default "" key in
    let daily_api_url := default "https://api.daily.co/v1" (environ !! "DAILY_API_URL") in
    let expiry_time := (60 * 60)%Z in
    token ← get_token key daily_api_url url expiry_time ;
    mret (url, token).

End Configure.

(** ** server.py (MedFlow): the registry of bot processes *)

(** A Python dict with integer keys, in insertion order: assigning to a key
    that is present replaces the value where it is, assigning to a new key
    appends. *)
Fixpoint dict_get {V} (k : Z) (d : list (Z * V)) : option V :=
  match d with
  | [] => None
  | (k', v) :: d' => if decide (k' = k) then Some v else dict_get k d'
  end.

Fixpoint dict_set {V} (k : Z) (v : V) (d : list (Z * V)) : list (Z * V) :=
  match d with
  | [] => [(k, v)]
  | (k', v') :: d' => if decide (k' = k) then (k, v) :: d' else (k', v') :: dict_set k v d'
  end.

Inductive HTTPResult : Type :=
  | RedirectResponse (url : string)
  | JSONResponse (bot_id : Z) (status : string).

(** What ends a request without a response of the handler's own: an
    [HTTPException], or another exception that the handler does not catch. *)
Inductive HTTPError : Type :=
  | HTTPException (status_code : Z) (detail : string)
  | Unhandled (e : exn).

Definition MAX_BOTS_PER_ROOM : nat := 1.

Section BotServer.

(** [subprocess.Popen] objects, their [pid], and [poll()] ([None] while the
    process runs, its return code afterwards). *)
Variable Popen : Type.
Variable pid : Popen -> Z.
Variable poll : Popen -> option Z.

(** [str(e)] of a caught exception. *)
Variable str_exn : exn -> string.

(** The module state ([bot_procs]), the commands handed to [Popen] that
    started a process, and what was printed. *)
Record ServerState : Type := mkServerState {
  bot_procs : list (Z * (Popen * string));
  spawned : list string;
  stdout : list string
}.

Definition server_print (line : string) (st : ServerState) : ServerState :=
  mkServerState (bot_procs st) (spawned st) (stdout st ++ [line]).

(** The running bots of a room, lines 95-98. *)
Definition bots_in_room (room_url : string) (procs : list (Z * (Popen * string)))
    : list (Z * (Popen * string)) :=
  filter (fun entry => snd (snd entry) = room_url /\ poll (fst (snd entry)) = None) procs.

(** [create_room] is the outcome of [daily_helpers["rest"].create_room(..)]
    reduced to [room.url]; [get_token] and [popen] are the outcomes of
    [get_token(room.url)] and of [subprocess.Popen([command], shell=True, ..)]. *)
Definition start_agent
    (create_room : exn + option string)
    (get_token : string -> exn + option string)
    (popen : string -> exn + Popen)
    (st : ServerState) : ServerState * (HTTPError + HTTPResult) :=
  let st := server_print "Creating new MedFlow intake session" st in
  match create_room with
  | inl e => (st, inl (Unhandled e))
  | inr room_url =>
      let st := server_print ("Room created: " +:+ default "None" room_url) st in
      if negb (truthy room_url) then
        (st, inl (HTTPException 500
                    "Failed to create room. Cannot start intake session without a valid room URL."))
      else
        let room_url := default "" room_url in
        let num_bots_in_room := length (bots_in_room room_url (bot_procs st)) in
        if bool_decide (MAX_BOTS_PER_ROOM <= num_bots_in_room) then
          (st, inl (HTTPException 500
                      ("Maximum bot limit reached for room: " +:+ room_url)))
        else
          match get_token room_url with
          | inl e => (st, inl (Unhandled e))
          | inr token =>
              if negb (truthy token) then
                (st, inl (HTTPException 500
                            ("Failed to generate authentication token for room: "
                             +:+ room_url)))
              else
                let command :=
                  "python3 -m bot -u " +:+ room_url +:+ " -t " +:+ default "" token in
                match popen command with
                | inr proc =>
                    (mkServerState (dict_set (pid proc) (proc, room_url) (bot_procs st))
                       (spawned st ++ [command]) (stdout st),
                     inr (RedirectResponse room_url))
                | inl e =>
                    (st, inl (HTTPException 500
                                ("Failed to start MedFlow assistant: " +:+ str_exn e)))
                end
          end
  end.

Definition get_status (pid0 : Z) (st : ServerState) : HTTPError + HTTPResult :=
  match dict_get pid0 (bot_procs st) with
  | None =>
      inl (HTTPException 404
             ("MedFlow assistant with process ID " +:+ pretty pid0 +:+ " not found"))
  | Some proc =>
      let status := match poll (fst proc) with None => "running" | Some _ => "finished" end in
      inr (JSONResponse pid0 status)
  end.

(** The registry as it should be: one entry per key, each process under its
    own pid, and no room with more running bots than the limit. *)
Definition registry_ok (st : ServerState) : Prop :=
  NoDup (fst <$> bot_procs st)
  /\ (forall k proc room_url, (k, (proc, room_url)) ∈ bot_procs st -> pid proc = k)
  /\ (forall room_url, length (bots_in_room room_url (bot_procs st)) <= MAX_BOTS_PER_ROOM).

End BotServer.

Arguments mkServerState {Popen}.
Arguments bot_procs {Popen}.
Arguments spawned {Popen}.
Arguments stdout {Popen}.

(** ** setup.py: the configuration files *)

(** [str.lower()] on the characters that matter to the comparison with 'y':
    the ASCII capitals; any other byte is kept. *)
Definition ascii_lower (c : Ascii.ascii) : Ascii.ascii :=
  let n := Ascii.nat_of_ascii c in
  if (65 <=? n)%nat && (n <=? 90)%nat then Ascii.ascii_of_nat (n + 32) else c.

Fixpoint str_lower (s : string) : string :=
  match s with
  | EmptyString => EmptyString
  | String c s' => String (ascii_lower c) (str_lower s')
  end.

(** Lexicographic [<] on tuples of integers: a proper prefix is smaller. *)
Fixpoint py_tuple_lt (a b : list Z) : bool :=
  match a, b with
  | _, [] => false
  | [], _ :: _ => true
  | x :: a', y :: b' =>
      if bool_decide (x < y)%Z then true
      else if bool_decide (x = y) then py_tuple_lt a' b'
      else false
  end.

(** The files of the working directory (what [Path(..).exists()] and
    [shutil.copy] see), the lines printed, and the prompts [input] showed. *)
Record SetupWorld : Type := mkSetupWorld {
  fs : gmap string (list byte);
  printed : list string;
  prompts : list string
}.

Definition setup_print (line : string) (w : SetupWorld) : SetupWorld :=
  mkSetupWorld (fs w) (printed w ++ [line]) (prompts w).

(** [shutil.copy(src, dst)] between two file paths, [src] existing. *)
Definition shutil_copy (src dst : string) (w : SetupWorld) : SetupWorld :=
  match fs w !! src with
  | Some data => mkSetupWorld (<[dst := data]> (fs w)) (printed w) (prompts w)
  | None => w
  end.

(** [sys.version_info] as the integers of its first fields, and
    [sys.version]; [sys.exit(1)] is the exception [SystemExit(1)]. *)
Definition check_python_version (version_info : list Z) (version : string)
    (w : SetupWorld) : SetupWorld * (exn + unit) :=
  if py_tuple_lt version_info [3; 10]%Z then
    let w := setup_print "❌ Error: Python 3.10 or higher is required" w in
    let w := setup_print ("   Current version: " +:+ version) w in
    (w, inl (OtherError "SystemExit(1)"))
  else
    (setup_print "✅ Python version check passed" w, inr tt).

(** [answer] is what [input] returns if it is called: a line, or an
    exception such as [EOFError]. *)
Definition create_env_file (answer : exn + string) (w : SetupWorld)
    : SetupWorld * (exn + unit) :=
  let env_example := "env.example" in
  let env_file := ".env" in
  let copy (w : SetupWorld) : SetupWorld * (exn + unit) :=
    if bool_decide (is_Some (fs w !! env_example)) then
      let w := shutil_copy env_example env_file w in
      let w := setup_print "✅ Created .env file from template" w in
      (setup_print "   Please edit .env file with your API keys" w, inr tt)
    else
      (setup_print "❌ Error: env.example file not found" w, inr tt) in
  if bool_decide (is_Some (fs w !! env_file)) then
    let w := setup_print "⚠️  .env file already exists" w in
    let w := mkSetupWorld (fs w) (printed w)
               (prompts w ++ ["   Do you want to overwrite it? (y/N): "]) in
    match answer with
    | inl e => (w, inl e)
    | inr line =>
        let response := str_lower line in
        if bool_decide (response <> "y") then
          (setup_print "   Skipping .env file creation" w, inr tt)
        else copy w
    end
  else copy w.

(** VoiceFlow/setup.py, lines 50-67. *)
Definition create_streams_xml (answer : exn + string) (w : SetupWorld)
    : SetupWorld * (exn + unit) :=
  let template_file := "templates/streams.xml.template" in
  let streams_file := "templates/streams.xml" in
  let copy (w : SetupWorld) : SetupWorld * (exn + unit) :=
    if bool_decide (is_Some (fs w !! template_file)) then
      let w := shutil_copy template_file streams_file w in
      let w := setup_print "✅ Created templates/streams.xml from template" w in
      (setup_print "   Please update the WebSocket URL with your ngrok domain" w, inr tt)
    else
      (setup_print "❌ Error: templates/streams.xml.template not found" w, inr tt) in
  if bool_decide (is_Some (fs w !! streams_file)) then
    let w := setup_print "⚠️  templates/streams.xml already exists" w in
    let w := mkSetupWorld (fs w) (printed w)
               (prompts w ++ ["   Do you want to overwrite it? (y/N): "]) in
    match answer with
    | inl e => (w, inl e)
    | inr line =>
        let response := str_lower line in
        if bool_decide (response <> "y") then
          (setup_print "   Skipping streams.xml creation" w, inr tt)
        else copy w
    end
  else copy w.

(** ** The order of the states as a property of the calls dispatched *)

(** The states gone through when [calls] are dispatched one after the other
    from the initial store, the first state included. *)
Definition states_visited (calls : list ToolCall) : list (option DialogueState) :=
  (fun x => dialogue_state (context x)) <$> visited initial_world calls.

(** The calls go through the states in order: from AwaitingIdentity every
    move stays or goes to the next state, so that the states in order of
    first visit are a prefix of the six. *)
Definition visits_in_order (calls : list ToolCall) : Prop :=
  exists states,
    states_visited calls = Some <$> states
    /\ walk AwaitingIdentity states
    /\ dedup_adjacent states `prefix_of` state_order.

(** A registry with a finished process under pid 7 in one room and a running
    one in another; a process is a pid and the number of the spawn it came
    from, and the first spawn has ended. *)
Definition example_poll (proc : Z * nat) : option Z :=
  match snd proc with
  | O => Some 0%Z
  | S _ => None
  end.

Definition example_registry : ServerState (Z * nat) :=
  mkServerState
    [(7%Z, ((7%Z, 0), "https://example.daily.co/r1"));
     (8%Z, ((8%Z, 1), "https://example.daily.co/r2"))] [] [].

(** * Properties *)

(** ** Equations of the handlers *)

Lemma py_eq_str_true (v : pyval) (s : string) :
  py_eq_str v s = true <-> v = PStr s.
Proof.
  destruct v; simpl; try (split; [discriminate | intros; discriminate]).
  rewrite bool_decide_eq_true. split; [intros -> | intros [= ->]]; reflexivity.
Qed.

Lemma py_eq_str_false (v : pyval) (s : string) :
  py_eq_str v s = false <-> v <> PStr s.
Proof.
  rewrite <- py_eq_str_true. destruct (py_eq_str v s); split; congruence.
Qed.

Ltac handler_steps :=
  unfold advanced;
  cbv [IntakeProcessor.list_prescriptions IntakeProcessor.list_allergies
       IntakeProcessor.list_conditions IntakeProcessor.list_visit_reasons
       IntakeProcessor.save_data mbind M_bind print emit set_tools add_message
       queue_context_frame arguments result_callback context trace messages tools];
  f_equal; f_equal; rewrite <- !app_assoc; reflexivity.

Lemma verify_birthday_missing args cb w :
  args !! "birthday" = None ->
  IntakeProcessor.verify_birthday (mkParams args cb) w = (w, inl (KeyError "birthday")).
Proof.
  intros H. unfold IntakeProcessor.verify_birthday, mbind, M_bind; simpl.
  rewrite H. reflexivity.
Qed.

Lemma verify_birthday_match args cb w :
  args !! "birthday" = Some (PStr reference_birthday) ->
  IntakeProcessor.verify_birthday (mkParams args cb) w
  = cb (Some [Prompts.prescriptions]) (with_tools [Tools.list_prescriptions] w).
Proof.
  intros H. unfold IntakeProcessor.verify_birthday, mbind, M_bind; simpl.
  rewrite H. reflexivity.
Qed.

Lemma verify_birthday_mismatch args v cb w :
  args !! "birthday" = Some v -> v <> PStr reference_birthday ->
  IntakeProcessor.verify_birthday (mkParams args cb) w
  = cb (Some [Prompts.birthday_retry]) w.
Proof.
  intros H Hne. apply py_eq_str_false in Hne.
  unfold IntakeProcessor.verify_birthday, mbind, M_bind; simpl.
  rewrite H; simpl. rewrite Hne. reflexivity.
Qed.

Lemma list_prescriptions_eq args cb w :
  IntakeProcessor.list_prescriptions (mkParams args cb) w
  = cb None (advanced "Processing prescription information"
               [Tools.list_allergies] Prompts.allergies args w).
Proof.
  handler_steps.
Qed.

Lemma list_allergies_eq args cb w :
  IntakeProcessor.list_allergies (mkParams args cb) w
  = cb None (advanced "Processing allergy information"
               [Tools.list_conditions] Prompts.conditions args w).
Proof.
  handler_steps.
Qed.

Lemma list_conditions_eq args cb w :
  IntakeProcessor.list_conditions (mkParams args cb) w
  = cb None (advanced "Processing medical conditions"
               [Tools.list_visit_reasons] Prompts.visit_reasons args w).
Proof.
  handler_steps.
Qed.

Lemma list_visit_reasons_eq args cb w :
  IntakeProcessor.list_visit_reasons (mkParams args cb) w
  = cb None (advanced "Processing visit reasons" [] Prompts.conclude args w).
Proof.
  handler_steps.
Qed.

Lemma pipeline_result_callback_some outgoing w :
  pipeline_result_callback (Some outgoing) w
  = (mkWorld (mkContext (messages (context w) ++ outgoing) (tools (context w)))
             (trace w ++ [EResultCallback (Some outgoing)]), inr tt).
Proof. reflexivity. Qed.

Lemma pipeline_result_callback_none w :
  pipeline_result_callback None w
  = (mkWorld (context w) (trace w ++ [EResultCallback None]), inr tt).
Proof. reflexivity. Qed.

Lemma sink_callback_eq outcome result w :
  sink_callback outcome result w
  = (mkWorld (context w) (trace w ++ [EResultCallback result]), outcome).
Proof. destruct outcome as [e|[]]; reflexivity. Qed.

Lemma registered_verify_birthday :
  registered_functions !! "verify_birthday" = Some IntakeProcessor.verify_birthday.
Proof. reflexivity. Qed.

Lemma registered_list_prescriptions :
  registered_functions !! "list_prescriptions" = Some IntakeProcessor.list_prescriptions.
Proof. reflexivity. Qed.

Lemma registered_list_allergies :
  registered_functions !! "list_allergies" = Some IntakeProcessor.list_allergies.
Proof. reflexivity. Qed.

Lemma registered_list_conditions :
  registered_functions !! "list_conditions" = Some IntakeProcessor.list_conditions.
Proof. reflexivity. Qed.

Lemma registered_list_visit_reasons :
  registered_functions !! "list_visit_reasons" = Some IntakeProcessor.list_visit_reasons.
Proof. reflexivity. Qed.

Lemma collection_handler_eq h greeting ts instruction args cb w :
  (h, (greeting, ts, instruction)) ∈ collection_handlers ->
  h (mkParams args cb) w = cb None (advanced greeting ts instruction args w).
Proof.
  unfold collection_handlers. intros Hin.
  repeat (apply elem_of_cons in Hin as [Heq | Hin]; [injection Heq as -> -> -> -> |]).
  - apply list_prescriptions_eq.
  - apply list_allergies_eq.
  - apply list_conditions_eq.
  - apply list_visit_reasons_eq.
  - apply elem_of_nil in Hin. contradiction.
Qed.

Lemma run_verify_birthday args w :
  run_function_call (mkCall "verify_birthday" args) w
  = IntakeProcessor.verify_birthday (mkParams args pipeline_result_callback) w.
Proof. reflexivity. Qed.

Lemma run_list_prescriptions args w :
  run_function_call (mkCall "list_prescriptions" args) w
  = IntakeProcessor.list_prescriptions (mkParams args pipeline_result_callback) w.
Proof. reflexivity. Qed.

Lemma run_list_allergies args w :
  run_function_call (mkCall "list_allergies" args) w
  = IntakeProcessor.list_allergies (mkParams args pipeline_result_callback) w.
Proof. reflexivity. Qed.

Lemma run_list_conditions args w :
  run_function_call (mkCall "list_conditions" args) w
  = IntakeProcessor.list_conditions (mkParams args pipeline_result_callback) w.
Proof. reflexivity. Qed.

Lemma run_list_visit_reasons args w :
  run_function_call (mkCall "list_visit_reasons" args) w
  = IntakeProcessor.list_visit_reasons (mkParams args pipeline_result_callback) w.
Proof. reflexivity. Qed.

(** ** Identity verification *)

(** C2: a [verify_birthday] call whose birthday differs from the reference
    leaves the tools as they are (still [verify_birthday], still
    AwaitingIdentity) and hands exactly one instruction, the retry one, to
    the result callback; the handler does nothing else, whatever the callback. *)
Theorem C2_mismatch_retries_in_place (args : gmap string pyval) (v : pyval) (w : World) :
  args !! "birthday" = Some v ->
  v <> PStr reference_birthday ->
  tools (context w) = [Tools.verify_birthday] ->
  (forall cb, IntakeProcessor.verify_birthday (mkParams args cb) w
              = cb (Some [Prompts.birthday_retry]) w)
  /\ snd (run_function_call (mkCall "verify_birthday" args) w) = inr tt
  /\ let w' := session_step w (mkCall "verify_birthday" args) in
     tools (context w') = tools (context w)
     /\ permitted_tool_names (context w') = ["verify_birthday"]
     /\ dialogue_state (context w') = Some AwaitingIdentity
     /\ messages (context w') = messages (context w) ++ [Prompts.birthday_retry]
     /\ role Prompts.birthday_retry = "system"
     /\ trace w' = trace w ++ [EResultCallback (Some [Prompts.birthday_retry])].
Proof.
  intros Hget Hne Htools.
  split; [intros cb; apply (verify_birthday_mismatch _ _ _ _ Hget Hne) |].
  unfold session_step. rewrite run_verify_birthday.
  rewrite (verify_birthday_mismatch _ _ _ _ Hget Hne).
  rewrite pipeline_result_callback_some. simpl.
  unfold permitted_tool_names, dialogue_state. simpl. rewrite Htools.
  repeat split; reflexivity.
Qed.

Lemma C2_mismatch_retries_in_place_witness :
  tools (context (session_step initial_world wrong_birthday_call)) = [Tools.verify_birthday]
  /\ messages (context (session_step initial_world wrong_birthday_call))
     = [Prompts.intro; Prompts.birthday_retry].
Proof.
  destruct (C2_mismatch_retries_in_place {["birthday" := PStr "1990-05-05"]}
              (PStr "1990-05-05") initial_world)
    as (_ & _ & Ht & _ & _ & Hm & _).
  - reflexivity.
  - discriminate.
  - reflexivity.
  - split; [exact Ht | exact Hm].
Defined.

(** C3: a [verify_birthday] call whose birthday is the reference string
    replaces the tool list by [list_prescriptions] alone and hands exactly one
    system message to the result callback, which appends it to the context. *)
Theorem C3_match_installs_list_prescriptions (args : gmap string pyval) (w : World) :
  args !! "birthday" = Some (PStr reference_birthday) ->
  (forall cb, IntakeProcessor.verify_birthday (mkParams args cb) w
              = cb (Some [Prompts.prescriptions]) (with_tools [Tools.list_prescriptions] w))
  /\ snd (run_function_call (mkCall "verify_birthday" args) w) = inr tt
  /\ let w' := session_step w (mkCall "verify_birthday" args) in
     tools (context w') = [Tools.list_prescriptions]
     /\ permitted_tool_names (context w') = ["list_prescriptions"]
     /\ ("verify_birthday" ∉ permitted_tool_names (context w'))
     /\ messages (context w') = messages (context w) ++ [Prompts.prescriptions]
     /\ length (messages (context w')) = S (length (messages (context w)))
     /\ role Prompts.prescriptions = "system"
     /\ trace w' = trace w ++ [EResultCallback (Some [Prompts.prescriptions])].
Proof.
  intros Hget.
  split; [intros cb; apply (verify_birthday_match _ _ _ Hget) |].
  unfold session_step. rewrite run_verify_birthday.
  rewrite (verify_birthday_match _ _ _ Hget).
  rewrite pipeline_result_callback_some. simpl.
  repeat split; try reflexivity.
  - unfold permitted_tool_names. simpl. intros Hin.
    apply list_elem_of_singleton in Hin. discriminate.
  - rewrite length_app. simpl. lia.
Qed.

Lemma C3_match_installs_list_prescriptions_witness :
  tools (context (session_step initial_world right_birthday_call)) = [Tools.list_prescriptions]
  /\ messages (context (session_step initial_world right_birthday_call))
     = [Prompts.intro; Prompts.prescriptions].
Proof.
  destruct (C3_match_installs_list_prescriptions {["birthday" := PStr "1983-01-01"]}
              initial_world)
    as (_ & _ & Ht & _ & _ & Hm & _).
  - reflexivity.
  - split; [exact Ht | exact Hm].
Defined.

Lemma branches_differ params w :
  result_callback params = pipeline_result_callback ->
  verified_branch params w <> retry_branch params w.
Proof.
  intros Hcb. unfold verified_branch, retry_branch, mbind, M_bind. rewrite Hcb.
  simpl. rewrite !pipeline_result_callback_some. simpl.
  intros Heq. apply (f_equal (fun r => trace (fst r))) in Heq. simpl in Heq.
  apply app_inv_head in Heq. discriminate.
Qed.

(** C10: the verification is the comparison of [arguments["birthday"]] with
    the literal "1983-01-01": the success arm runs exactly when the value is
    that string, any other spelling of the date runs the retry arm, and the
    store plays no part in the choice. *)
Theorem C10_exact_string_equality (args : gmap string pyval) (s : string) (w : World) :
  args !! "birthday" = Some (PStr s) ->
  let params := mkParams args pipeline_result_callback in
  (IntakeProcessor.verify_birthday params w = verified_branch params w <-> s = "1983-01-01")
  /\ (IntakeProcessor.verify_birthday params w = retry_branch params w <-> s <> "1983-01-01")
  /\ (forall w2 args2, args2 !! "birthday" = Some (PStr s) ->
        let params2 := mkParams args2 pipeline_result_callback in
        (IntakeProcessor.verify_birthday params w = verified_branch params w
         <-> IntakeProcessor.verify_birthday params2 w2 = verified_branch params2 w2))
  /\ (forall cb w0, IntakeProcessor.verify_birthday
                      (mkParams {["birthday" := PStr "01/01/1983"]} cb) w0
                    = retry_branch (mkParams {["birthday" := PStr "01/01/1983"]} cb) w0)
  /\ (forall cb w0, IntakeProcessor.verify_birthday
                      (mkParams {["birthday" := PStr "1983-1-1"]} cb) w0
                    = retry_branch (mkParams {["birthday" := PStr "1983-1-1"]} cb) w0).
Proof.
  intros Hget params.
  assert (Hdec : forall a w1, a !! "birthday" = Some (PStr s) ->
            (IntakeProcessor.verify_birthday (mkParams a pipeline_result_callback) w1
             = verified_branch (mkParams a pipeline_result_callback) w1 <-> s = "1983-01-01")
            /\ (IntakeProcessor.verify_birthday (mkParams a pipeline_result_callback) w1
             = retry_branch (mkParams a pipeline_result_callback) w1 <-> s <> "1983-01-01")).
  { intros a w1 Ha. destruct (decide (s = "1983-01-01")) as [-> | Hne].
    - rewrite (verify_birthday_match _ _ _ Ha). split; split; try done.
      intros Heq. exfalso.
      apply (branches_differ (mkParams a pipeline_result_callback) w1 eq_refl).
      exact Heq.
    - rewrite (verify_birthday_mismatch _ (PStr s) _ _ Ha)
        by (unfold reference_birthday; congruence).
      split; split; try done.
      intros Heq. exfalso.
      apply (branches_differ (mkParams a pipeline_result_callback) w1 eq_refl).
      symmetry. exact Heq. }
  destruct (Hdec args w Hget) as [Hv Hr].
  split; [exact Hv |]. split; [exact Hr |].
  split.
  - intros w2 args2 Hget2 params2. destruct (Hdec args2 w2 Hget2) as [Hv2 _].
    unfold params, params2. rewrite Hv, Hv2. reflexivity.
  - split; intros cb w0.
    + apply (verify_birthday_mismatch _ (PStr "01/01/1983")); done.
    + apply (verify_birthday_mismatch _ (PStr "1983-1-1")); done.
Qed.

Lemma C10_exact_string_equality_witness :
  IntakeProcessor.verify_birthday
    (mkParams {["birthday" := PStr "1983-01-01"]} pipeline_result_callback) initial_world
  = verified_branch
      (mkParams {["birthday" := PStr "1983-01-01"]} pipeline_result_callback) initial_world.
Proof.
  apply (C10_exact_string_equality {["birthday" := PStr "1983-01-01"]} "1983-01-01"
           initial_world); reflexivity.
Defined.

(** ** The collection steps and the persistence sink *)

(** C4: in each collection handler the advance (next tools installed, next
    instruction appended, frame queued) is finished before the sink is
    called and is the same whatever the sink call does: the handler is the
    callback run on the advanced store, and with a sink that ends in any
    outcome, an error included, the context is the advanced one. *)
Theorem C4_advance_unconditional_on_sink
    (h : handler) (greeting : string) (ts : list Tool) (instruction : Message) :
  (h, (greeting, ts, instruction)) ∈ collection_handlers ->
  forall (args : gmap string pyval) (w : World),
    (forall cb, h (mkParams args cb) w = cb None (advanced greeting ts instruction args w))
    /\ context (advanced greeting ts instruction args w)
       = mkContext (messages (context w) ++ [instruction]) ts
    /\ forall outcome : exn + unit,
         let r := h (mkParams args (sink_callback outcome)) w in
         snd r = outcome
         /\ context (fst r) = mkContext (messages (context w) ++ [instruction]) ts
         /\ EQueueFrame (context (fst r)) ∈ trace (fst r).
Proof.
  intros Hin args w. split; [| split].
  - intros cb. apply (collection_handler_eq _ _ _ _ _ _ _ Hin).
  - reflexivity.
  - intros outcome r. subst r.
    rewrite (collection_handler_eq _ _ _ _ _ _ _ Hin), sink_callback_eq. simpl.
    repeat split.
    apply elem_of_app; left. unfold advanced; simpl.
    apply elem_of_app; right. apply elem_of_cons; right. apply list_elem_of_here.
Qed.

Lemma C4_advance_unconditional_on_sink_witness :
  snd (IntakeProcessor.list_prescriptions
         (mkParams ∅ (sink_callback (inl (OtherError "sink unavailable")))) initial_world)
  = inl (OtherError "sink unavailable")
  /\ context (fst (IntakeProcessor.list_prescriptions
                     (mkParams ∅ (sink_callback (inl (OtherError "sink unavailable"))))
                     initial_world))
     = mkContext [Prompts.intro; Prompts.allergies] [Tools.list_allergies].
Proof.
  destruct (C4_advance_unconditional_on_sink IntakeProcessor.list_prescriptions
              "Processing prescription information" [Tools.list_allergies] Prompts.allergies
              ltac:(unfold collection_handlers; apply list_elem_of_here) ∅ initial_world)
    as (_ & _ & Ho).
  destruct (Ho (inl (OtherError "sink unavailable"))) as (Hs & Hc & _).
  split; [exact Hs | exact Hc].
Defined.

(** C7: once [list_visit_reasons] has run the tool list is empty, the
    context is at Complete, the generation stage is offered no tool and no
    further permitted call exists. *)
Theorem C7_complete_has_no_tools (args : gmap string pyval) (w : World) :
  let w' := session_step w (mkCall "list_visit_reasons" args) in
  tools (context w') = []
  /\ permitted_tool_names (context w') = []
  /\ dialogue_state (context w') = Some Complete
  /\ (forall c, generation_permits (context w') c = false)
  /\ (forall calls, permitted_calls w' calls = true <-> calls = [])
  /\ (forall cb, exists w_adv,
        tools (context w_adv) = []
        /\ IntakeProcessor.list_visit_reasons (mkParams args cb) w = cb None w_adv).
Proof.
  intros w'.
  assert (Ht : tools (context w') = []) by reflexivity.
  assert (Hp : forall c, generation_permits (context w') c = false).
  { intros c. unfold generation_permits, permitted_tool_names. rewrite Ht.
    apply bool_decide_eq_false. simpl. apply not_elem_of_nil. }
  repeat split; try reflexivity; try exact Hp.
  - destruct calls as [| c cs]; [reflexivity |]. simpl. rewrite Hp. discriminate.
  - intros ->. reflexivity.
  - intros cb. eexists. split; [| apply list_visit_reasons_eq]. reflexivity.
Qed.

Lemma C7_complete_has_no_tools_witness :
  tools (context (session_step initial_world (mkCall "list_visit_reasons" ∅))) = []
  /\ generation_permits
       (context (session_step initial_world (mkCall "list_visit_reasons" ∅)))
       (mkCall "list_visit_reasons" ∅) = false.
Proof.
  destruct (C7_complete_has_no_tools ∅ initial_world) as (Ht & _ & _ & Hp & _).
  split; [exact Ht | apply Hp].
Defined.

(** ** Arguments that do not fit the schema *)

(** C5 as stated fails on its own example: [verify_birthday] called without
    a "birthday" key raises out of the handler instead of answering in place. *)
Lemma C5_missing_birthday_not_handled_in_place :
  ~ handled_in_place IntakeProcessor.verify_birthday ∅ initial_world.
Proof.
  unfold handled_in_place. rewrite verify_birthday_missing by reflexivity.
  simpl. intros (Hraise & _). discriminate.
Qed.

(** A number where the schema of [list_prescriptions] declares an array: the
    handler advances all the same. *)
Example wrong_type_prescriptions_advance :
  let w := with_tools [Tools.list_prescriptions] initial_world in
  ~ handled_in_place IntakeProcessor.list_prescriptions {["prescriptions" := PInt 5]} w
  /\ tools (context (session_step w (mkCall "list_prescriptions" {["prescriptions" := PInt 5]})))
     = [Tools.list_allergies].
Proof.
  split; [| reflexivity].
  unfold handled_in_place. intros (_ & Ht & _). discriminate.
Qed.

(** C5, as the code has it: the handlers do not check the arguments against
    the schema. Without a "birthday" key [verify_birthday] raises
    [KeyError] before it touches anything (same tools, no message, callback
    not called); a "birthday" that is not a string is answered like a wrong
    birthday, with the retry instruction and the tools unchanged; a
    collection handler advances whatever the arguments are. *)
Theorem C5_arguments_are_not_validated (args : gmap string pyval) (w : World) :
  args !! "birthday" = None ->
  (forall cb, IntakeProcessor.verify_birthday (mkParams args cb) w
              = (w, inl (KeyError "birthday")))
  /\ (forall v cb, (forall s, v <> PStr s) ->
        IntakeProcessor.verify_birthday (mkParams (<["birthday" := v]> args) cb) w
        = cb (Some [Prompts.birthday_retry]) w)
  /\ (forall h greeting ts instruction any_args,
        (h, (greeting, ts, instruction)) ∈ collection_handlers ->
        let r := h (mkParams any_args pipeline_result_callback) w in
        snd r = inr tt
        /\ context (fst r) = mkContext (messages (context w) ++ [instruction]) ts).
Proof.
  intros Hnone. split; [| split].
  - intros cb. apply verify_birthday_missing. exact Hnone.
  - intros v cb Hv. apply (verify_birthday_mismatch _ v).
    + apply lookup_insert_eq.
    + apply Hv.
  - intros h greeting ts instruction any_args Hin r. subst r.
    rewrite (collection_handler_eq _ _ _ _ _ _ _ Hin), pipeline_result_callback_none.
    split; reflexivity.
Qed.

Lemma C5_arguments_are_not_validated_witness :
  IntakeProcessor.verify_birthday (mkParams ∅ pipeline_result_callback) initial_world
  = (initial_world, inl (KeyError "birthday")).
Proof.
  destruct (C5_arguments_are_not_validated ∅ initial_world) as (Hraise & _).
  - reflexivity.
  - apply Hraise.
Defined.

(** ** The order of the dialogue states *)

Lemma permits_singleton ctx (t : Tool) c :
  tools ctx = [t] ->
  generation_permits ctx c = true -> call_name c = tool_name t.
Proof.
  intros Ht Hp. unfold generation_permits, permitted_tool_names in Hp.
  rewrite Ht in Hp. apply bool_decide_eq_true in Hp.
  simpl in Hp. apply list_elem_of_singleton in Hp. exact Hp.
Qed.

Lemma permits_none ctx c :
  tools ctx = [] -> generation_permits ctx c = false.
Proof.
  intros Ht. unfold generation_permits, permitted_tool_names. rewrite Ht.
  apply bool_decide_eq_false. simpl. apply not_elem_of_nil.
Qed.

(** One permitted call moves the tools from those of a step to those of the
    same step (a retry, at AwaitingIdentity only) or of the next one, and
    what the step appends to the trace queues only frames that carry the
    tools it leaves installed. *)
Lemma session_step_exposed s w c :
  tools (context w) = exposed_tools s ->
  generation_permits (context w) c = true ->
  let w' := session_step w c in
  ((s = AwaitingIdentity /\ tools (context w') = exposed_tools s)
   \/ (exists s', next_state s = Some s' /\ tools (context w') = exposed_tools s'))
  /\ exists events, trace w' = trace w ++ events
       /\ forall frame, EQueueFrame frame ∈ events -> tools frame = tools (context w').
Proof.
  intros Ht Hp w'. subst w'.
  destruct c as [n args].
  destruct s; simpl in Ht;
    try (apply (permits_singleton _ _ _ Ht) in Hp; simpl in Hp; subst n).
  - unfold session_step. rewrite run_verify_birthday.
    destruct (args !! "birthday") as [v |] eqn:Hget.
    + destruct (py_eq_str v reference_birthday) eqn:Hcmp;
        [apply py_eq_str_true in Hcmp as -> | apply py_eq_str_false in Hcmp as Hne].
      * rewrite (verify_birthday_match _ _ _ Hget), pipeline_result_callback_some.
        simpl. split; [right; eexists; split; reflexivity |].
        eexists. split; [reflexivity |].
        intros frame Hin. apply list_elem_of_singleton in Hin. discriminate.
      * rewrite (verify_birthday_mismatch _ _ _ _ Hget Hne), pipeline_result_callback_some.
        simpl. split; [left; split; [reflexivity | exact Ht] |].
        eexists. split; [reflexivity |].
        intros frame Hin. apply list_elem_of_singleton in Hin. discriminate.
    + rewrite (verify_birthday_missing _ _ _ Hget). simpl.
      split; [left; split; [reflexivity | exact Ht] |].
      exists []. split; [symmetry; apply app_nil_r |].
      intros frame Hin. apply elem_of_nil in Hin. contradiction.
  - unfold session_step. rewrite run_list_prescriptions, list_prescriptions_eq,
      pipeline_result_callback_none. simpl.
    split; [right; eexists; split; reflexivity |].
    eexists. split; [rewrite <- app_assoc; reflexivity |].
    intros frame Hin. simpl in Hin.
    repeat (apply elem_of_cons in Hin as [Heq | Hin]; [try discriminate |]).
    + injection Heq as ->. reflexivity.
    + apply elem_of_nil in Hin. contradiction.
  - unfold session_step. rewrite run_list_allergies, list_allergies_eq,
      pipeline_result_callback_none. simpl.
    split; [right; eexists; split; reflexivity |].
    eexists. split; [rewrite <- app_assoc; reflexivity |].
    intros frame Hin. simpl in Hin.
    repeat (apply elem_of_cons in Hin as [Heq | Hin]; [try discriminate |]).
    + injection Heq as ->. reflexivity.
    + apply elem_of_nil in Hin. contradiction.
  - unfold session_step. rewrite run_list_conditions, list_conditions_eq,
      pipeline_result_callback_none. simpl.
    split; [right; eexists; split; reflexivity |].
    eexists. split; [rewrite <- app_assoc; reflexivity |].
    intros frame Hin. simpl in Hin.
    repeat (apply elem_of_cons in Hin as [Heq | Hin]; [try discriminate |]).
    + injection Heq as ->. reflexivity.
    + apply elem_of_nil in Hin. contradiction.
  - unfold session_step. rewrite run_list_visit_reasons, list_visit_reasons_eq,
      pipeline_result_callback_none. simpl.
    split; [right; eexists; split; reflexivity |].
    eexists. split; [rewrite <- app_assoc; reflexivity |].
    intros frame Hin. simpl in Hin.
    repeat (apply elem_of_cons in Hin as [Heq | Hin]; [try discriminate |]).
    + injection Heq as ->. reflexivity.
    + apply elem_of_nil in Hin. contradiction.
  - rewrite (permits_none _ _ Ht) in Hp. discriminate.
Qed.

Lemma dialogue_state_exposed ctx s :
  tools ctx = exposed_tools s -> dialogue_state ctx = Some s.
Proof. intros Ht. unfold dialogue_state. rewrite Ht. destruct s; reflexivity. Qed.

Lemma reachable_exposed w :
  reachable w -> exists s, tools (context w) = exposed_tools s.
Proof.
  induction 1 as [| w c _ [s Hs] Hp].
  - exists AwaitingIdentity. reflexivity.
  - destruct (session_step_exposed s w c Hs Hp) as [[[_ Ht] | (s' & _ & Ht)] _];
      eauto.
Qed.

Lemma walk_head s l : walk s l -> exists t, l = s :: t.
Proof. destruct 1; eauto. Qed.

Lemma walk_dedup_prefix s l :
  walk s l -> dedup_adjacent l `prefix_of` drop (rank s) state_order.
Proof.
  induction 1 as [s | s l Hw IH | s s' l Hnext Hw IH].
  - destruct s; simpl; eexists; reflexivity.
  - destruct (walk_head _ _ Hw) as [t ->].
    change (dedup_adjacent (s :: s :: t))
      with (if decide (s = s) then dedup_adjacent (s :: t) else s :: dedup_adjacent (s :: t)).
    destruct (decide (s = s)) as [_ | Hne]; [exact IH | contradiction].
  - destruct (walk_head _ _ Hw) as [t ->].
    change (dedup_adjacent (s :: s' :: t))
      with (if decide (s = s') then dedup_adjacent (s' :: t)
            else s :: dedup_adjacent (s' :: t)).
    destruct (decide (s = s')) as [-> | Hne].
    + destruct s'; discriminate.
    + destruct s; simpl in Hnext; try discriminate; injection Hnext as <-;
        simpl in *; apply prefix_cons; exact IH.
Qed.

Lemma visited_walk calls : forall s w,
  tools (context w) = exposed_tools s ->
  permitted_calls w calls = true ->
  exists states,
    (fun x => dialogue_state (context x)) <$> visited w calls = Some <$> states
    /\ walk s states.
Proof.
  induction calls as [| c cs IH]; intros s w Ht Hp.
  - exists [s]. simpl. rewrite (dialogue_state_exposed _ _ Ht).
    split; [reflexivity | constructor].
  - simpl in Hp. apply andb_true_iff in Hp as [Hc Hcs].
    destruct (session_step_exposed s w c Ht Hc) as [[[_ Ht'] | (s' & Hn & Ht')] _].
    + destruct (IH s _ Ht' Hcs) as (states & Hv & Hw).
      exists (s :: states). split.
      * change (visited w (c :: cs)) with (w :: visited (session_step w c) cs).
        rewrite fmap_cons, Hv, (dialogue_state_exposed _ _ Ht). reflexivity.
      * apply walk_stay. exact Hw.
    + destruct (IH s' _ Ht' Hcs) as (states & Hv & Hw).
      exists (s :: states). split.
      * change (visited w (c :: cs)) with (w :: visited (session_step w c) cs).
        rewrite fmap_cons, Hv, (dialogue_state_exposed _ _ Ht). reflexivity.
      * apply (walk_next s s'); assumption.
Qed.

Lemma handler_installs_exactly fname h :
  registered_functions !! fname = Some h ->
  exists s s', handler_state fname = Some s /\ next_state s = Some s'
    /\ forall args w,
         let w' := fst (h (mkParams args pipeline_result_callback) w) in
         (fname = "verify_birthday" ->
          args !! "birthday" <> Some (PStr reference_birthday) ->
          tools (context w') = tools (context w))
         /\ (fname <> "verify_birthday"
             \/ args !! "birthday" = Some (PStr reference_birthday) ->
             tools (context w') = exposed_tools s').
Proof.
  unfold registered_functions. intros H.
  repeat (rewrite lookup_insert in H; case_decide;
          [subst fname; apply (inj Some) in H; subst h |]).
  - exists CollectingVisitReasons, Complete. repeat split; try discriminate.
  - exists CollectingConditions, CollectingVisitReasons. repeat split; try discriminate.
  - exists CollectingAllergies, CollectingConditions. repeat split; try discriminate.
  - exists CollectingPrescriptions, CollectingAllergies. repeat split; try discriminate.
  - exists AwaitingIdentity, CollectingPrescriptions.
    split; [reflexivity | split; [reflexivity |]]. intros args w; cbv zeta. split.
    + intros _ Hne. destruct (args !! "birthday") as [v |] eqn:Hget.
      * rewrite (verify_birthday_mismatch _ v _ _ Hget) by congruence. reflexivity.
      * rewrite (verify_birthday_missing _ _ _ Hget). reflexivity.
    + intros [Hn | Hget]; [contradiction |].
      rewrite (verify_birthday_match _ _ _ Hget). reflexivity.
  - rewrite lookup_empty in H. discriminate.
Qed.

(** C1 as stated, for every sequence of calls, fails: the handlers do not
    look at the installed tool and all five stay registered, so a call that
    names a tool not on offer is dispatched. [list_conditions] as first call
    goes from AwaitingIdentity straight to CollectingVisitReasons, and a
    second [verify_birthday] after [list_prescriptions] goes back from
    CollectingAllergies to CollectingPrescriptions. *)
Lemma C1_unpermitted_calls_skip_and_go_back :
  ~ visits_in_order [mkCall "list_conditions" ∅]
  /\ ~ visits_in_order [right_birthday_call; mkCall "list_prescriptions" ∅;
                        right_birthday_call].
Proof.
  split; intros (states & Hv & _ & Hpre).
  - assert (Hs : states = [AwaitingIdentity; CollectingVisitReasons]).
    { vm_compute in Hv. destruct states as [| a [| b [| c rest]]]; try discriminate Hv.
      injection Hv as <- <-. reflexivity. }
    subst states. destruct Hpre as [k Hk]. vm_compute in Hk. discriminate Hk.
  - assert (Hs : states = [AwaitingIdentity; CollectingPrescriptions;
                           CollectingAllergies; CollectingPrescriptions]).
    { vm_compute in Hv.
      destruct states as [| a [| b [| c [| d [| e rest]]]]]; try discriminate Hv.
      injection Hv as <- <- <- <-. reflexivity. }
    subst states. destruct Hpre as [k Hk]. vm_compute in Hk. discriminate Hk.
Qed.

(** C1, amended: in a session where every call names a tool that was on offer
    when it was made, the states gone through start at AwaitingIdentity and
    every move stays (a retry) or goes to the next state, so the states in
    order of first visit are a prefix of the six. And every registered
    handler, run on any store, installs exactly the tools of the state after
    its own: the collection handlers always, [verify_birthday] when the
    birthday is the reference one, leaving the tools as they are otherwise;
    none installs the tools of an earlier state. *)
Theorem C1_states_visited_in_order (calls : list ToolCall) :
  permitted_calls initial_world calls = true ->
  visits_in_order calls
  /\ (forall fname h, registered_functions !! fname = Some h ->
        exists s s', handler_state fname = Some s /\ next_state s = Some s'
          /\ forall args w,
               let w' := fst (h (mkParams args pipeline_result_callback) w) in
               (fname = "verify_birthday" ->
                args !! "birthday" <> Some (PStr reference_birthday) ->
                tools (context w') = tools (context w))
               /\ (fname <> "verify_birthday"
                   \/ args !! "birthday" = Some (PStr reference_birthday) ->
                   tools (context w') = exposed_tools s')).
Proof.
  intros Hp. split; [| exact handler_installs_exactly].
  destruct (visited_walk calls AwaitingIdentity initial_world eq_refl Hp)
    as (states & Hv & Hw).
  exists states. split; [exact Hv |]. split; [exact Hw |].
  apply (walk_dedup_prefix _ _ Hw).
Qed.

Lemma C1_states_visited_in_order_witness : visits_in_order full_session.
Proof.
  apply (C1_states_visited_in_order full_session). reflexivity.
Defined.

Example full_session_states :
  (fun x => dialogue_state (context x)) <$> visited initial_world full_session
  = Some <$> (AwaitingIdentity :: state_order).
Proof. reflexivity. Qed.

(** The registrations alone do not order the states: a call that names a tool
    which is not on offer is still dispatched. *)
Example dispatch_ignores_installed_tools :
  let c := mkCall "list_conditions" ∅ in
  generation_permits (context initial_world) c = false
  /\ dialogue_state (context (session_step initial_world c)) = Some CollectingVisitReasons.
Proof. split; reflexivity. Qed.

(** ** What the generation stage can call *)

Lemma exposed_at_most_one s : length (exposed_tools s) <= 1.
Proof. destruct s; simpl; lia. Qed.

Lemma next_state_tools_disjoint s s' n :
  next_state s = Some s' ->
  n ∈ (tool_name <$> exposed_tools s) -> n ∉ (tool_name <$> exposed_tools s').
Proof.
  intros Hn Hin Hin'.
  destruct s; simpl in Hn; try discriminate; injection Hn as <-; simpl in *;
    apply list_elem_of_singleton in Hin; subst n;
    first [ apply list_elem_of_singleton in Hin'; discriminate
          | apply elem_of_nil in Hin'; contradiction ].
Qed.

(** C6: all through a session the names on offer to the generation stage are
    those of the installed tool list, which holds at most one tool; every
    context frame a step queues carries the list that step leaves installed;
    when a step changes the list, no name that was on offer before is on offer
    after, the tool just called included; and the handlers of the five names
    stay registered throughout. *)
Theorem C6_only_installed_tools_callable (w : World) (c : ToolCall) :
  reachable w ->
  generation_permits (context w) c = true ->
  let w' := session_step w c in
  length (tools (context w')) <= 1
  /\ (forall c', generation_permits (context w') c' = true
                 <-> exists t, t ∈ tools (context w') /\ call_name c' = tool_name t)
  /\ (exists events, trace w' = trace w ++ events
        /\ forall frame, EQueueFrame frame ∈ events -> tools frame = tools (context w'))
  /\ (tools (context w') <> tools (context w) ->
        generation_permits (context w') c = false
        /\ forall n, n ∈ permitted_tool_names (context w) ->
                     n ∉ permitted_tool_names (context w'))
  /\ is_Some (registered_functions !! call_name c)
  /\ dom registered_functions
     = ({["verify_birthday"; "list_prescriptions"; "list_allergies";
          "list_conditions"; "list_visit_reasons"]} : gset string).
Proof.
  intros Hreach Hp w'.
  destruct (reachable_exposed w Hreach) as [s Hs].
  destruct (session_step_exposed s w c Hs Hp) as [Hmove Hframes].
  fold w' in Hmove, Hframes.
  assert (Hcall : call_name c ∈ permitted_tool_names (context w)).
  { unfold generation_permits in Hp. apply bool_decide_eq_true in Hp. exact Hp. }
  split; [| split; [| split; [exact Hframes | split; [| split]]]].
  - destruct Hmove as [[_ Ht] | (s' & _ & Ht)]; rewrite Ht; apply exposed_at_most_one.
  - intros c'. unfold generation_permits, permitted_tool_names.
    rewrite bool_decide_eq_true, list_elem_of_fmap. split.
    + intros (t & Hn & Hin). exists t. split; assumption.
    + intros (t & Hin & Hn). exists t. split; assumption.
  - intros Hchanged.
    destruct Hmove as [[_ Ht] | (s' & Hn & Ht)]; [rewrite Ht, Hs in Hchanged; contradiction |].
    assert (Hstale : forall n, n ∈ permitted_tool_names (context w) ->
                               n ∉ permitted_tool_names (context w')).
    { intros n. unfold permitted_tool_names. rewrite Ht, Hs.
      apply (next_state_tools_disjoint _ _ _ Hn). }
    split; [| exact Hstale].
    unfold generation_permits. apply bool_decide_eq_false. apply Hstale, Hcall.
  - unfold permitted_tool_names in Hcall. rewrite Hs in Hcall.
    destruct s; simpl in Hcall;
      first [ apply list_elem_of_singleton in Hcall; rewrite Hcall; eexists; reflexivity
            | apply elem_of_nil in Hcall; contradiction ].
  - unfold registered_functions. rewrite !dom_insert_L, dom_empty_L. set_solver.
Qed.

Lemma C6_only_installed_tools_callable_witness :
  generation_permits (context (session_step initial_world right_birthday_call))
    right_birthday_call = false
  /\ is_Some (registered_functions !! "verify_birthday").
Proof.
  destruct (C6_only_installed_tools_callable initial_world right_birthday_call
              reachable_init eq_refl)
    as (_ & _ & _ & Hstale & Hreg & _).
  split; [| exact Hreg].
  apply Hstale. simpl. discriminate.
Defined.

(** ** The recording sink *)

Lemma length_le_bytes width z : length (Wave.le_bytes width z) = width.
Proof.
  revert z. induction width as [| n IH]; intros z; simpl; [reflexivity |].
  rewrite IH. reflexivity.
Qed.

Lemma length_header sampwidth nchannels framerate datalength :
  length (Wave.header sampwidth nchannels framerate datalength) = 44.
Proof.
  unfold Wave.header. rewrite !length_app, !length_le_bytes. reflexivity.
Qed.

Lemma fits_true width z :
  (0 <= z < 256 ^ Z.of_nat width)%Z -> Wave.fits width z = true.
Proof. intros H. unfold Wave.fits. apply bool_decide_eq_true. exact H. Qed.

(** A 16-bit PCM stream whose format and size fit the header is written as
    the header followed by the frames. *)
Lemma wave_write_ok nchannels framerate frames :
  (1 <= nchannels <= 32767)%Z ->
  (0 < framerate)%Z ->
  (nchannels * framerate * 2 < 2 ^ 32)%Z ->
  (36 + Z.of_nat (length frames) < 2 ^ 32)%Z ->
  Wave.write 2 nchannels framerate frames
  = inr (Wave.header 2 nchannels framerate (Z.of_nat (length frames)) ++ frames).
Proof.
  intros Hch Hrate Hbyte Hlen. unfold Wave.write.
  rewrite (bool_decide_eq_true_2 (1 <= 2 <= 4)%Z) by lia. simpl negb. cbv iota.
  rewrite (bool_decide_eq_false_2 (nchannels < 1)%Z) by lia.
  rewrite (bool_decide_eq_false_2 (framerate <= 0)%Z) by lia.
  rewrite !fits_true; [reflexivity | | | | |];
    change (256 ^ Z.of_nat 2)%Z with 65536%Z;
    change (256 ^ Z.of_nat 4)%Z with (2 ^ 32)%Z; nia.
Qed.

(** C8: [save_audio] with an empty buffer opens and writes no file; with a
    non-empty buffer it writes one file or none: when the 16-bit PCM format
    and the size fit the WAV header it opens exactly one file, named from the
    session's name and the clock, whose content is the 44-byte header followed
    by exactly the buffer, and when the writer rejects them it opens none. The
    client's copy is the same function, and the server's handler names the
    file after the port of the session's socket. *)
Theorem C8_flush_writes_one_file_or_none
    (server_name : string) (audio : list byte) (sample_rate num_channels : Z)
    (w : FileWorld) :
  (audio = [] ->
     snd (save_audio server_name audio sample_rate num_channels w) = inr tt
     /\ files (fst (save_audio server_name audio sample_rate num_channels w)) = files w
     /\ opened (fst (save_audio server_name audio sample_rate num_channels w)) = opened w)
  /\ (audio <> [] ->
      (1 <= num_channels <= 32767)%Z ->
      (0 < sample_rate)%Z ->
      (num_channels * sample_rate * 2 < 2 ^ 32)%Z ->
      (36 + Z.of_nat (length audio) < 2 ^ 32)%Z ->
      let r := save_audio server_name audio sample_rate num_channels w in
      let filename := server_name +:+ "_recording_" +:+ now w +:+ ".wav" in
      let wav := Wave.header 2 num_channels sample_rate (Z.of_nat (length audio)) ++ audio in
      snd r = inr tt
      /\ opened (fst r) = opened w ++ [filename]
      /\ files (fst r) = <[filename := wav]> (files w)
      /\ files (fst r) !! filename = Some wav
      /\ (forall other, other <> filename -> files (fst r) !! other = files w !! other)
      /\ drop 44 wav = audio
      /\ take 4 wav = String.list_byte_of_string "RIFF")
  /\ (forall e, Wave.write 2 num_channels sample_rate audio = inl e ->
       files (fst (save_audio server_name audio sample_rate num_channels w)) = files w
       /\ opened (fst (save_audio server_name audio sample_rate num_channels w)) = opened w)
  /\ client_save_audio server_name audio sample_rate num_channels w
     = save_audio server_name audio sample_rate num_channels w
  /\ (forall port, on_audio_data port audio sample_rate num_channels w
                   = save_audio ("voiceflow_server_" +:+ pretty port)
                       audio sample_rate num_channels w).
Proof.
  split; [| split; [| split; [| split; [reflexivity | reflexivity]]]].
  - intros ->. repeat split.
  - intros Hne Hch Hrate Hbyte Hlen r filename wav. subst r. unfold save_audio.
    rewrite bool_decide_eq_true_2 by (destruct audio; [contradiction | simpl; lia]).
    rewrite wave_write_ok by assumption. simpl. fold filename wav.
    repeat split.
    + apply lookup_insert_eq.
    + intros other Hother. apply lookup_insert_ne. congruence.
  - intros e He. unfold save_audio. rewrite He.
    case_bool_decide; split; reflexivity.
Qed.

Lemma C8_flush_writes_one_file_or_none_witness :
  snd (save_audio "voiceflow_server_50000" [x01; x02; x03; x04]%byte 8000 1
         (mkFileWorld "20240101_120000" ∅ [] [])) = inr tt
  /\ opened (fst (save_audio "voiceflow_server_50000" [x01; x02; x03; x04]%byte 8000 1
                    (mkFileWorld "20240101_120000" ∅ [] [])))
     = ["voiceflow_server_50000_recording_20240101_120000.wav"].
Proof.
  destruct (C8_flush_writes_one_file_or_none "voiceflow_server_50000"
              [x01; x02; x03; x04]%byte 8000 1 (mkFileWorld "20240101_120000" ∅ [] []))
    as (_ & Hwrite & _).
  destruct Hwrite as (Hok & Hopened & _); try (simpl; lia); [discriminate |].
  split; [exact Hok | exact Hopened].
Defined.

(** ** The socket endpoint *)

(** C9: the endpoint drops the first message whatever it is, parses the
    second, reads ["start"]["streamSid"] and ["start"]["callSid"] from it and
    calls the voice assistant with those two values as they are, of whatever
    type and shape, and with the messages that follow. *)
Theorem C9_identifiers_passed_through
    (json_loads : string -> exn + pyval)
    (first second : string) (rest : list string) (app_state_testing : bool)
    (call_data start : gmap string pyval) (sid cid : pyval) :
  json_loads second = inr (PDict call_data) ->
  call_data !! "start" = Some (PDict start) ->
  start !! "streamSid" = Some sid ->
  start !! "callSid" = Some cid ->
  websocket_endpoint json_loads (first :: second :: rest) app_state_testing
  = inr (mkVoiceAssistantCall rest sid cid app_state_testing)
  /\ forall other_first,
       websocket_endpoint json_loads (other_first :: second :: rest) app_state_testing
       = websocket_endpoint json_loads (first :: second :: rest) app_state_testing.
Proof.
  intros Hparse Hstart Hsid Hcid. split; [| reflexivity].
  unfold websocket_endpoint, mbind, result_bind. simpl.
  rewrite Hparse. simpl. rewrite Hstart. simpl. rewrite Hsid, Hcid. reflexivity.
Qed.

Lemma C9_identifiers_passed_through_witness :
  websocket_endpoint (fun _ => inr (PDict {["start" := PDict example_start]}))
    ["connected"; "start"; "media"] false
  = inr (mkVoiceAssistantCall ["media"]
           (PStr "MZ18ad3ab5a668481ce02b83e7395059f0") (PInt 42) false).
Proof.
  apply (C9_identifiers_passed_through
           (fun _ => inr (PDict {["start" := PDict example_start]}))
           "connected" "start" ["media"] false
           {["start" := PDict example_start]} example_start); reflexivity.
Defined.

(** * Further properties of the sources *)

(** ** bot.py: what a session can and cannot do *)

Lemma run_session_cons w c cs :
  run_session w (c :: cs) = run_session (session_step w c) cs.
Proof. reflexivity. Qed.

Lemma session_step_verify_unverified w c :
  tools (context w) = [Tools.verify_birthday] ->
  generation_permits (context w) c = true ->
  ~ supplies_reference_birthday c ->
  tools (context (session_step w c)) = [Tools.verify_birthday].
Proof.
  intros Ht Hp Hno. pose proof (permits_singleton _ _ _ Ht Hp) as Hn.
  destruct c as [n args]. simpl in Hn. subst n.
  unfold session_step. rewrite run_verify_birthday.
  destruct (args !! "birthday") as [v |] eqn:Hget.
  - destruct (py_eq_str v reference_birthday) eqn:Hcmp;
      [apply py_eq_str_true in Hcmp as -> | apply py_eq_str_false in Hcmp as Hne].
    + exfalso. apply Hno. split; [reflexivity | exact Hget].
    + rewrite (verify_birthday_mismatch _ _ _ _ Hget Hne), pipeline_result_callback_some.
      exact Ht.
  - rewrite (verify_birthday_missing _ _ _ Hget). exact Ht.
Qed.

(** X1: the identity gate. In a session whose calls each name a tool on
    offer, the tools stay [verify_birthday] until some call supplies exactly
    the reference birthday: if the session ends with any other tool list, one
    of its calls was [verify_birthday] with ["birthday"] equal to the
    reference string. *)
Theorem identity_gate_needs_reference_birthday (calls : list ToolCall) :
  permitted_calls initial_world calls = true ->
  tools (context (run_session initial_world calls)) <> [Tools.verify_birthday] ->
  exists c, c ∈ calls /\ supplies_reference_birthday c.
Proof.
  assert (Hgen : forall cs w,
            tools (context w) = [Tools.verify_birthday] ->
            permitted_calls w cs = true ->
            tools (context (run_session w cs)) <> [Tools.verify_birthday] ->
            exists c, c ∈ cs /\ supplies_reference_birthday c).
  { induction cs as [| c cs IH]; intros w Ht Hp Hend.
    - simpl in Hend. contradiction.
    - simpl in Hp. apply andb_true_iff in Hp as [Hc Hcs].
      destruct c as [n args] eqn:Hceq.
      destruct (decide (n = "verify_birthday")) as [-> | Hn].
      + destruct (args !! "birthday") as [v |] eqn:Hget.
        * destruct (py_eq_str v reference_birthday) eqn:Hcmp.
          -- apply py_eq_str_true in Hcmp as ->.
             exists (mkCall "verify_birthday" args). split; [apply list_elem_of_here |].
             split; [reflexivity | exact Hget].
          -- apply py_eq_str_false in Hcmp.
             destruct (IH (session_step w (mkCall "verify_birthday" args))) as (c' & Hin & Hc').
             ++ apply session_step_verify_unverified; [exact Ht | exact Hc |].
                intros [_ Hsup]. simpl in Hsup. rewrite Hget in Hsup. congruence.
             ++ exact Hcs.
             ++ exact Hend.
             ++ exists c'. split; [apply list_elem_of_further; exact Hin | exact Hc'].
        * destruct (IH (session_step w (mkCall "verify_birthday" args))) as (c' & Hin & Hc').
          -- apply session_step_verify_unverified; [exact Ht | exact Hc |].
             intros [_ Hsup]. simpl in Hsup. rewrite Hget in Hsup. discriminate.
          -- exact Hcs.
          -- exact Hend.
          -- exists c'. split; [apply list_elem_of_further; exact Hin | exact Hc'].
      + exfalso. apply Hn. apply (permits_singleton _ _ _ Ht Hc). }
  intros Hp Hend. apply (Hgen calls initial_world eq_refl Hp Hend).
Qed.

Lemma identity_gate_needs_reference_birthday_witness :
  exists c, c ∈ full_session /\ supplies_reference_birthday c.
Proof.
  apply (identity_gate_needs_reference_birthday full_session).
  - reflexivity.
  - discriminate.
Defined.

Lemma walk_steps s l :
  walk s l ->
  forall i a b, l !! i = Some a -> l !! (S i) = Some b ->
                rank b = rank a \/ rank b = S (rank a).
Proof.
  induction 1 as [s | s l Hw IH | s s' l Hnext Hw IH]; intros i a b Ha Hb.
  - destruct i; discriminate Hb.
  - destruct (walk_head _ _ Hw) as [t ->]. destruct i as [| i].
    + simpl in Ha, Hb. injection Ha as <-. injection Hb as <-. left. reflexivity.
    + apply (IH i a b); assumption.
  - destruct (walk_head _ _ Hw) as [t ->]. destruct i as [| i].
    + simpl in Ha, Hb. injection Ha as <-. injection Hb as <-. right.
      destruct s; simpl in Hnext; try discriminate; injection Hnext as <-; reflexivity.
    + apply (IH i a b); assumption.
Qed.

Lemma walk_rank s l :
  walk s l -> forall i a, l !! i = Some a -> rank s <= rank a <= rank s + i.
Proof.
  induction 1 as [s | s l Hw IH | s s' l Hnext Hw IH]; intros i a Ha.
  - destruct i as [| i]; [| destruct i; discriminate Ha].
    simpl in Ha. injection Ha as <-. lia.
  - destruct i as [| i]; [simpl in Ha; injection Ha as <-; lia |].
    specialize (IH i a Ha). lia.
  - destruct i as [| i]; [simpl in Ha; injection Ha as <-; lia |].
    specialize (IH i a Ha).
    assert (rank s' = S (rank s))
      by (destruct s; simpl in Hnext; try discriminate; injection Hnext as <-; reflexivity).
    lia.
Qed.

Lemma length_visited calls : forall w, length (visited w calls) = S (length calls).
Proof.
  induction calls as [| c cs IH]; intros w; [reflexivity |].
  change (visited w (c :: cs)) with (w :: visited (session_step w c) cs).
  simpl. rewrite IH. reflexivity.
Qed.

Lemma last_visited calls : forall w, last (visited w calls) = Some (run_session w calls).
Proof.
  induction calls as [| c cs IH]; intros w; [reflexivity |].
  change (visited w (c :: cs)) with (w :: visited (session_step w c) cs).
  rewrite last_cons, IH. reflexivity.
Qed.

(** X2: a permitted session only moves forward and by at most one state per
    call: every state gone through has the rank of the state before it or one
    more, the state after [i] calls has rank at most [i], and the session
    ends in the last of these states, whose tools are the ones installed; so
    Complete takes five calls or more. *)
Theorem session_progress_bounded (calls : list ToolCall) :
  permitted_calls initial_world calls = true ->
  exists states,
    states_visited calls = Some <$> states
    /\ length states = S (length calls)
    /\ (forall i s s', states !! i = Some s -> states !! (S i) = Some s' ->
          rank s' = rank s \/ rank s' = S (rank s))
    /\ (forall i s, states !! i = Some s -> rank s <= i)
    /\ exists s_end,
         last states = Some s_end
         /\ tools (context (run_session initial_world calls)) = exposed_tools s_end
         /\ rank s_end <= length calls
         /\ (s_end = Complete -> 5 <= length calls).
Proof.
  intros Hp.
  destruct (visited_walk calls AwaitingIdentity initial_world eq_refl Hp)
    as (states & Hv & Hw).
  assert (Hlen : length states = S (length calls)).
  { apply (f_equal length) in Hv. rewrite !length_fmap, length_visited in Hv.
    symmetry. exact Hv. }
  assert (Hend : last states
                 = dialogue_state (context (run_session initial_world calls))).
  { apply (f_equal last) in Hv. rewrite !fmap_last, last_visited in Hv. simpl in Hv.
    destruct (last states) as [s |]; [| discriminate Hv].
    simpl in Hv. injection Hv as Hv. symmetry. exact Hv. }
  assert (Hexp : exists s, tools (context (run_session initial_world calls))
                           = exposed_tools s).
  { clear Hv Hw Hlen Hend states.
    assert (Hgen : forall cs s w,
              tools (context w) = exposed_tools s ->
              permitted_calls w cs = true ->
              exists s', tools (context (run_session w cs)) = exposed_tools s').
    { induction cs as [| c cs IH]; intros s w Ht Hpc; [exists s; exact Ht |].
      simpl in Hpc. apply andb_true_iff in Hpc as [Hc Hcs]. rewrite run_session_cons.
      destruct (session_step_exposed s w c Ht Hc) as [[[_ Ht'] | (s1 & _ & Ht')] _];
        eapply IH; eassumption. }
    apply (Hgen calls AwaitingIdentity initial_world eq_refl Hp). }
  destruct Hexp as [s_end Hs_end].
  rewrite (dialogue_state_exposed _ _ Hs_end) in Hend.
  assert (Hidx : states !! length calls = Some s_end).
  { rewrite last_lookup, Hlen in Hend. exact Hend. }
  pose proof (walk_rank _ _ Hw _ _ Hidx) as Hr. simpl in Hr.
  exists states. split; [exact Hv |]. split; [exact Hlen |].
  split; [apply (walk_steps _ _ Hw) |].
  split; [intros i s Hi; pose proof (walk_rank _ _ Hw _ _ Hi) as Hri; simpl in Hri; lia |].
  exists s_end. split; [exact Hend |]. split; [exact Hs_end |]. split; [lia |].
  intros ->. simpl in Hr. lia.
Qed.

Lemma session_progress_bounded_witness :
  exists states,
    states_visited full_session = Some <$> states
    /\ length states = S (length full_session)
    /\ (forall i s s', states !! i = Some s -> states !! (S i) = Some s' ->
          rank s' = rank s \/ rank s' = S (rank s))
    /\ (forall i s, states !! i = Some s -> rank s <= i)
    /\ exists s_end,
         last states = Some s_end
         /\ tools (context (run_session initial_world full_session)) = exposed_tools s_end
         /\ rank s_end <= length full_session
         /\ (s_end = Complete -> 5 <= length full_session).
Proof.
  apply (session_progress_bounded full_session). reflexivity.
Defined.

(** ** voiceflow_server.py: when the endpoint starts the assistant *)

(** X4: the endpoint starts the voice assistant exactly when there are two
    messages, the second parses, and the parsed value has a ["start"] entry
    holding ["streamSid"] and ["callSid"]; the call then carries those two
    values and the messages after the second. *)
Theorem websocket_endpoint_success_iff
    (json_loads : string -> exn + pyval) (incoming : list string)
    (app_state_testing : bool) (call : VoiceAssistantCall) :
  websocket_endpoint json_loads incoming app_state_testing = inr call
  <-> exists first second rest call_data start,
        incoming = first :: second :: rest
        /\ json_loads second = inr call_data
        /\ py_getitem call_data "start" = inr start
        /\ py_getitem start "streamSid" = inr (stream_sid call)
        /\ py_getitem start "callSid" = inr (call_sid call)
        /\ remaining call = rest
        /\ testing call = app_state_testing.
Proof.
  unfold websocket_endpoint, mbind, result_bind. split.
  - destruct incoming as [| first [| second rest]]; simpl; try discriminate.
    destruct (json_loads second) as [e | call_data] eqn:Hparse; [discriminate |].
    destruct (py_getitem call_data "start") as [e | start] eqn:Hstart; [discriminate |].
    destruct (py_getitem start "streamSid") as [e | sid] eqn:Hsid; [discriminate |].
    destruct (py_getitem start "callSid") as [e | cid] eqn:Hcid; [discriminate |].
    intros [= <-]. exists first, second, rest, call_data, start.
    repeat split; assumption.
  - intros (first & second & rest & call_data & start & -> & Hparse & Hstart & Hsid & Hcid
            & Hrest & Htest).
    simpl. rewrite Hparse, Hstart, Hsid, Hcid. simpl.
    destruct call; simpl in *; subst; reflexivity.
Qed.

(** X5: with fewer than two messages before the peer closes, the endpoint
    ends in [StopAsyncIteration]; nothing is parsed and the assistant is not
    started. *)
Theorem websocket_endpoint_too_few_messages
    (json_loads : string -> exn + pyval) (incoming : list string)
    (app_state_testing : bool) :
  length incoming < 2 ->
  websocket_endpoint json_loads incoming app_state_testing = inl StopAsyncIteration.
Proof.
  intros Hlen. destruct incoming as [| first [| second rest]]; simpl in Hlen;
    [reflexivity | reflexivity | lia].
Qed.

Lemma websocket_endpoint_too_few_messages_witness :
  websocket_endpoint (fun _ => inr PNone) ["connected"] true = inl StopAsyncIteration.
Proof.
  apply (websocket_endpoint_too_few_messages (fun _ => inr PNone) ["connected"] true).
  simpl. lia.
Defined.

(** X6: a second message that parses to a dict but lacks an entry makes the
    endpoint raise [KeyError] for the first entry missing in the order
    "start", "streamSid", "callSid"; a ["start"] that is not a dict makes it
    raise [TypeError]; a parse error is passed on as it is. *)
Theorem websocket_endpoint_missing_entries
    (json_loads : string -> exn + pyval) (first second : string) (rest : list string)
    (app_state_testing : bool) (call_data : gmap string pyval) :
  json_loads second = inr (PDict call_data) ->
  let result := websocket_endpoint json_loads (first :: second :: rest) app_state_testing in
  (call_data !! "start" = None -> result = inl (KeyError "start"))
  /\ (forall start, call_data !! "start" = Some (PDict start) ->
        start !! "streamSid" = None -> result = inl (KeyError "streamSid"))
  /\ (forall start sid, call_data !! "start" = Some (PDict start) ->
        start !! "streamSid" = Some sid -> start !! "callSid" = None ->
        result = inl (KeyError "callSid"))
  /\ (forall v, call_data !! "start" = Some v -> (forall d, v <> PDict d) ->
        result = inl TypeError).
Proof.
  intros Hparse result. subst result.
  unfold websocket_endpoint, mbind, result_bind. simpl. rewrite Hparse. simpl.
  repeat split.
  - intros ->. reflexivity.
  - intros start -> Hsid. simpl. rewrite Hsid. reflexivity.
  - intros start sid -> Hsid Hcid. simpl. rewrite Hsid, Hcid. reflexivity.
  - intros v -> Hv. destruct v; try reflexivity. exfalso. apply (Hv d). reflexivity.
Qed.

Lemma websocket_endpoint_missing_entries_witness :
  websocket_endpoint
    (fun _ => inr (PDict {["start" := PDict {["callSid" := PStr "CA1"]}]}))
    ["connected"; "start"] false
  = inl (KeyError "streamSid").
Proof.
  destruct (websocket_endpoint_missing_entries
              (fun _ => inr (PDict {["start" := PDict {["callSid" := PStr "CA1"]}]}))
              "connected" "start" [] false
              {["start" := PDict {["callSid" := PStr "CA1"]}]} eq_refl)
    as (_ & Hsid & _).
  apply (Hsid {["callSid" := PStr "CA1"]}); reflexivity.
Defined.

(** X7: the handshake of the test client is what the server endpoint
    expects. If the two messages [on_connected] sends reach the endpoint as
    text, each encoded by an encoder that [json_loads] inverts on the start
    message, the endpoint starts the assistant with the client's own stream
    and call identifiers and with the messages that follow. *)
Theorem client_handshake_accepted
    (json_loads : string -> exn + pyval) (json_dumps : pyval -> string)
    (client_stream_sid client_call_sid : string) (rest : list string)
    (app_state_testing : bool) :
  json_loads (json_dumps (start_msg client_stream_sid client_call_sid))
  = inr (start_msg client_stream_sid client_call_sid) ->
  websocket_endpoint json_loads
    ((json_dumps <$> on_connected client_stream_sid client_call_sid) ++ rest)
    app_state_testing
  = inr (mkVoiceAssistantCall rest (PStr client_stream_sid) (PStr client_call_sid)
           app_state_testing).
Proof.
  intros Hround. unfold on_connected. simpl.
  unfold websocket_endpoint, mbind, result_bind. simpl. rewrite Hround.
  reflexivity.
Qed.

Lemma client_handshake_accepted_witness :
  websocket_endpoint (fun _ => inr (start_msg "stream-1" "call-1"))
    (((fun _ => "text") <$> on_connected "stream-1" "call-1") ++ ["media"]) false
  = inr (mkVoiceAssistantCall ["media"] (PStr "stream-1") (PStr "call-1") false).
Proof.
  apply (client_handshake_accepted (fun _ => inr (start_msg "stream-1" "call-1"))
           (fun _ => "text") "stream-1" "call-1" ["media"] false).
  reflexivity.
Defined.

(** ** client.py: the stream URL of a TwiML document *)

Lemma head_filter_Some {A} (P : A -> Prop) `{forall x, Decision (P x)} (l : list A) (x : A) :
  head (filter P l) = Some x
  <-> exists pre post, l = pre ++ x :: post /\ Forall (fun y => ~ P y) pre /\ P x.
Proof.
  induction l as [| y l IH]; simpl.
  - split; [discriminate |]. intros (pre & post & Heq & _). destruct pre; discriminate.
  - rewrite filter_cons. destruct (decide (P y)) as [Hy | Hy]; simpl.
    + split.
      * intros [= ->]. exists [], l. repeat split; [constructor | exact Hy].
      * intros (pre & post & Heq & Hpre & Hx). destruct pre as [| z pre].
        -- injection Heq as -> _. reflexivity.
        -- injection Heq as -> _. apply Forall_cons in Hpre as [Hz _]. contradiction.
    + rewrite IH. split.
      * intros (pre & post & -> & Hpre & Hx). exists (y :: pre), post.
        repeat split; [constructor; assumption | exact Hx].
      * intros (pre & post & Heq & Hpre & Hx). destruct pre as [| z pre].
        -- injection Heq as -> _. contradiction.
        -- injection Heq as -> ->. apply Forall_cons in Hpre as [_ Hpre].
           exists pre, post. repeat split; assumption.
Qed.

Lemma head_filter_None {A} (P : A -> Prop) `{forall x, Decision (P x)} (l : list A) :
  head (filter P l) = None <-> Forall (fun y => ~ P y) l.
Proof.
  induction l as [| y l IH]; simpl.
  - split; [constructor | reflexivity].
  - rewrite filter_cons. destruct (decide (P y)) as [Hy | Hy]; simpl.
    + split; [discriminate |]. intros HF. apply Forall_cons in HF as [Hn _]. contradiction.
    + rewrite IH. split; [intros HF; constructor; assumption |].
      intros HF. apply Forall_cons in HF as [_ HF]. exact HF.
Qed.

(** X8: [get_stream_url_from_twiml] returns the ["url"] attribute ([None]
    when it has none) of the first element tagged Stream below the root, in
    document order, and of no other. *)
Theorem get_stream_url_is_first_stream
    (fromstring : string -> exn + Element) (twiml : string) (root : Element)
    (url : option string) :
  fromstring twiml = inr root ->
  get_stream_url_from_twiml fromstring twiml = inr url
  <-> exists before stream_element after,
        flat_map iter (children root) = before ++ stream_element :: after
        /\ Forall (fun e => tag e <> "Stream") before
        /\ tag stream_element = "Stream"
        /\ url = attrib stream_element !! "url".
Proof.
  intros Hparse. unfold get_stream_url_from_twiml, mbind, result_bind.
  rewrite Hparse. unfold find_descendant, findall_descendants.
  destruct (head _) as [e |] eqn:Hhead.
  - apply head_filter_Some in Hhead as (pre & post & Heq & Hpre & He).
    split.
    + intros [= <-]. exists pre, e, post. repeat split; assumption.
    + intros (before & el & after & Heq' & Hbefore & Hel & ->).
      assert (Hsame : head (filter (fun x => tag x = "Stream")
                              (flat_map iter (children root))) = Some el).
      { apply head_filter_Some. exists before, after. repeat split; assumption. }
      assert (Hsame' : head (filter (fun x => tag x = "Stream")
                               (flat_map iter (children root))) = Some e).
      { apply head_filter_Some. exists pre, post. repeat split; assumption. }
      rewrite Hsame in Hsame'. injection Hsame' as ->. reflexivity.
  - split; [discriminate |].
    intros (before & el & after & Heq' & Hbefore & Hel & _).
    apply head_filter_None in Hhead. rewrite Heq' in Hhead.
    apply Forall_app in Hhead as [_ Hhead]. apply Forall_cons in Hhead as [Hno _].
    contradiction.
Qed.

Lemma get_stream_url_is_first_stream_witness :
  get_stream_url_from_twiml
    (fun _ => inr (mkElement "Response" ∅
                     [mkElement "Connect" ∅
                        [mkElement "Stream" {["url" := "wss://example.test/ws"]} []]]))
    "twiml"
  = inr (Some "wss://example.test/ws").
Proof.
  apply (get_stream_url_is_first_stream
           (fun _ => inr (mkElement "Response" ∅
                            [mkElement "Connect" ∅
                               [mkElement "Stream" {["url" := "wss://example.test/ws"]} []]]))
           "twiml" _ (Some "wss://example.test/ws") eq_refl).
  exists [mkElement "Connect" ∅
            [mkElement "Stream" {["url" := "wss://example.test/ws"]} []]],
         (mkElement "Stream" {["url" := "wss://example.test/ws"]} []), [].
  repeat split. constructor; [discriminate | constructor].
Defined.

(** X9: without an element tagged Stream below the root the function raises
    [AttributeError], and only then; the root's own tag and attributes play
    no part, so a document whose root is the Stream element is rejected. *)
Theorem get_stream_url_without_stream
    (fromstring : string -> exn + Element) (twiml : string) (root : Element) :
  fromstring twiml = inr root ->
  (get_stream_url_from_twiml fromstring twiml = inl (OtherError "AttributeError")
   <-> Forall (fun e => tag e <> "Stream") (flat_map iter (children root)))
  /\ (forall other_tag other_attrib,
        find_descendant "Stream" (mkElement other_tag other_attrib (children root))
        = find_descendant "Stream" root)
  /\ (children root = [] ->
      get_stream_url_from_twiml fromstring twiml = inl (OtherError "AttributeError")).
Proof.
  intros Hparse.
  assert (Hiff : get_stream_url_from_twiml fromstring twiml = inl (OtherError "AttributeError")
                 <-> Forall (fun e => tag e <> "Stream") (flat_map iter (children root))).
  { unfold get_stream_url_from_twiml, mbind, result_bind. rewrite Hparse.
    unfold find_descendant, findall_descendants.
    rewrite <- (head_filter_None (fun e => tag e = "Stream")).
    destruct (head _); split; try discriminate; reflexivity. }
  split; [exact Hiff | split].
  - intros other_tag other_attrib. reflexivity.
  - intros Hnil. apply Hiff. rewrite Hnil. constructor.
Qed.

Lemma get_stream_url_without_stream_witness :
  get_stream_url_from_twiml
    (fun _ => inr (mkElement "Stream" {["url" := "wss://example.test/ws"]} [])) "twiml"
  = inl (OtherError "AttributeError").
Proof.
  destruct (get_stream_url_without_stream
              (fun _ => inr (mkElement "Stream" {["url" := "wss://example.test/ws"]} []))
              "twiml" _ eq_refl) as (_ & _ & Hroot).
  apply Hroot. reflexivity.
Defined.

(** ** voice_assistant.py and client.py: recordings on disk *)

Lemma string_length_app (s t : string) :
  String.length (s +:+ t) = String.length s + String.length t.
Proof. induction s as [| a s IH]; simpl; [reflexivity | rewrite IH; reflexivity]. Qed.

Lemma string_app_inv_tail (s1 s2 t : string) : s1 +:+ t = s2 +:+ t -> s1 = s2.
Proof.
  revert s2. induction s1 as [| a s1 IH]; intros [| b s2] H; simpl in H.
  - reflexivity.
  - apply (f_equal String.length) in H. simpl in H.
    rewrite ?string_length_app in H. simpl in H. lia.
  - apply (f_equal String.length) in H. simpl in H.
    rewrite ?string_length_app in H. simpl in H. lia.
  - injection H as -> H. f_equal. apply IH. exact H.
Qed.

Lemma recording_filename_inj_name n1 n2 timestamp :
  recording_filename n1 timestamp = recording_filename n2 timestamp -> n1 = n2.
Proof. unfold recording_filename. apply string_app_inv_tail. Qed.

Lemma save_audio_written name audio sample_rate num_channels w :
  pcm16_format_ok num_channels sample_rate -> buffer_ok audio ->
  save_audio name audio sample_rate num_channels w
  = (mkFileWorld (now w)
       (<[recording_filename name (now w) := wav_of num_channels sample_rate audio]> (files w))
       (opened w ++ [recording_filename name (now w)])
       (log w ++ ["Audio recording saved: " +:+ recording_filename name (now w)]),
     inr tt).
Proof.
  intros (Hch & Hrate & Hbyte) (Hne & Hlen). unfold save_audio.
  rewrite bool_decide_eq_true_2 by (destruct audio; [contradiction | simpl; lia]).
  rewrite wave_write_ok by assumption. reflexivity.
Qed.

(** X10: two recordings saved under the same name while the clock shows the
    same second go to the same file: the second replaces the first, and only
    the later buffer is on disk. *)
Theorem save_audio_same_second_overwrites
    (name : string) (first second : list byte) (sample_rate num_channels : Z)
    (w : FileWorld) :
  pcm16_format_ok num_channels sample_rate ->
  buffer_ok first -> buffer_ok second ->
  let w1 := fst (save_audio name first sample_rate num_channels w) in
  let w2 := fst (save_audio name second sample_rate num_channels w1) in
  files w2 = <[recording_filename name (now w) := wav_of num_channels sample_rate second]>
               (files w)
  /\ opened w2 = opened w ++ [recording_filename name (now w); recording_filename name (now w)]
  /\ (first <> second ->
      files w2 !! recording_filename name (now w)
      <> Some (wav_of num_channels sample_rate first)).
Proof.
  intros Hfmt H1 H2 w1 w2. subst w1 w2.
  rewrite (save_audio_written _ first) by assumption. simpl.
  rewrite (save_audio_written _ second) by assumption. simpl.
  split; [apply insert_insert_eq | split; [rewrite <- app_assoc; reflexivity |]].
  intros Hne. rewrite insert_insert_eq, lookup_insert_eq. intros Heq.
  apply (inj Some) in Heq. apply Hne. unfold wav_of in Heq.
  apply (f_equal (drop 44)) in Heq.
  rewrite !drop_app_length' in Heq by (rewrite length_header; reflexivity).
  symmetry. exact Heq.
Qed.

Lemma save_audio_same_second_overwrites_witness :
  files (fst (save_audio "voiceflow_server_50000" [x03; x04]%byte 8000 1
                (fst (save_audio "voiceflow_server_50000" [x01; x02]%byte 8000 1
                        (mkFileWorld "20240101_120000" ∅ [] [])))))
  = {[recording_filename "voiceflow_server_50000" "20240101_120000"
      := wav_of 1 8000 [x03; x04]%byte]}.
Proof.
  destruct (save_audio_same_second_overwrites "voiceflow_server_50000"
              [x01; x02]%byte [x03; x04]%byte 8000 1
              (mkFileWorld "20240101_120000" ∅ [] [])) as (Hfiles & _).
  - unfold pcm16_format_ok. lia.
  - split; [discriminate | simpl; lia].
  - split; [discriminate | simpl; lia].
  - exact Hfiles.
Defined.

(** X11: recordings of sessions on different ports never share a file, even
    within the same second: after both handlers have run, each recording is
    on disk under its own name. *)
Theorem recordings_of_different_ports_coexist
    (port1 port2 : nat) (audio1 audio2 : list byte) (sample_rate num_channels : Z)
    (w : FileWorld) :
  port1 <> port2 ->
  pcm16_format_ok num_channels sample_rate ->
  buffer_ok audio1 -> buffer_ok audio2 ->
  let w1 := fst (on_audio_data port1 audio1 sample_rate num_channels w) in
  let w2 := fst (on_audio_data port2 audio2 sample_rate num_channels w1) in
  recording_filename ("voiceflow_server_" +:+ pretty port1) (now w)
  <> recording_filename ("voiceflow_server_" +:+ pretty port2) (now w)
  /\ files w2 !! recording_filename ("voiceflow_server_" +:+ pretty port1) (now w)
     = Some (wav_of num_channels sample_rate audio1)
  /\ files w2 !! recording_filename ("voiceflow_server_" +:+ pretty port2) (now w)
     = Some (wav_of num_channels sample_rate audio2).
Proof.
  intros Hports Hfmt H1 H2 w1 w2. subst w1 w2. unfold on_audio_data.
  assert (Hnames : recording_filename ("voiceflow_server_" +:+ pretty port1) (now w)
                   <> recording_filename ("voiceflow_server_" +:+ pretty port2) (now w)).
  { intros Heq. apply recording_filename_inj_name in Heq.
    apply (inj (String.append "voiceflow_server_")) in Heq.
    apply (inj pretty) in Heq. contradiction. }
  split; [exact Hnames |].
  rewrite (save_audio_written _ audio1) by assumption. simpl.
  rewrite (save_audio_written _ audio2) by assumption. simpl.
  split.
  - rewrite lookup_insert_ne by congruence. apply lookup_insert_eq.
  - apply lookup_insert_eq.
Qed.

Lemma recordings_of_different_ports_coexist_witness :
  files (fst (on_audio_data 4001 [x03]%byte 8000 1
                (fst (on_audio_data 4000 [x01]%byte 8000 1
                        (mkFileWorld "20240101_120000" ∅ [] [])))))
  !! recording_filename ("voiceflow_server_" +:+ pretty 4000) "20240101_120000"
  = Some (wav_of 1 8000 [x01]%byte).
Proof.
  destruct (recordings_of_different_ports_coexist 4000 4001 [x01]%byte [x03]%byte 8000 1
              (mkFileWorld "20240101_120000" ∅ [] [])) as (_ & Hfirst & _).
  - lia.
  - unfold pcm16_format_ok. lia.
  - split; [discriminate | simpl; lia].
  - split; [discriminate | simpl; lia].
  - exact Hfirst.
Defined.

(** X12: the test clients started by [main] have pairwise different names,
    and so write pairwise different files for one and the same clock
    reading. *)
Theorem client_recordings_have_distinct_names (clients : nat) (timestamp : string) :
  NoDup (client_names clients)
  /\ NoDup ((fun name => recording_filename name timestamp) <$> client_names clients)
  /\ length (client_names clients) = clients.
Proof.
  assert (Hnames : NoDup (client_names clients)).
  { unfold client_names. apply NoDup_fmap_2; [| apply NoDup_seq].
    intros i j Heq. apply (inj (String.append "voiceflow_client_")) in Heq.
    apply (inj pretty) in Heq. exact Heq. }
  split; [exact Hnames | split].
  - apply NoDup_fmap_2; [| exact Hnames].
    intros n1 n2. apply recording_filename_inj_name.
  - unfold client_names. rewrite length_fmap, length_seq. reflexivity.
Qed.

(** X13: a non-empty buffer in a format the WAV writer refuses (no channel,
    or a sample rate of zero or less) makes [save_audio] raise; no file is
    opened or written and nothing is logged. *)
Theorem save_audio_rejected_format
    (name : string) (audio : list byte) (sample_rate num_channels : Z) (w : FileWorld) :
  audio <> [] ->
  (num_channels < 1 \/ sample_rate <= 0)%Z ->
  exists e, save_audio name audio sample_rate num_channels w = (w, inl e).
Proof.
  intros Hne Hbad. unfold save_audio.
  rewrite bool_decide_eq_true_2 by (destruct audio; [contradiction | simpl; lia]).
  unfold Wave.write.
  rewrite (bool_decide_eq_true_2 (1 <= 2 <= 4)%Z) by lia. simpl negb. cbv iota.
  destruct (bool_decide (num_channels < 1)%Z) eqn:Hch; [eexists; reflexivity |].
  apply bool_decide_eq_false in Hch.
  rewrite (bool_decide_eq_true_2 (sample_rate <= 0)%Z) by lia.
  eexists; reflexivity.
Qed.

Lemma save_audio_rejected_format_witness :
  exists e, save_audio "voiceflow_server_50000" [x01]%byte 8000 0
              (mkFileWorld "20240101_120000" ∅ [] [])
            = (mkFileWorld "20240101_120000" ∅ [] [], inl e).
Proof.
  apply (save_audio_rejected_format "voiceflow_server_50000" [x01]%byte 8000 0
           (mkFileWorld "20240101_120000" ∅ [] [])).
  - discriminate.
  - lia.
Defined.

(** ** runner.py: where the room URL and the key come from *)

Lemma py_or_truthy a b s :
  py_or a b = Some s -> s <> "" ->
  a = Some s \/ ((a = None \/ a = Some "") /\ b = Some s).
Proof.
  unfold py_or, truthy. destruct a as [t |]; [| intros ->; right; split; [left |]; reflexivity].
  case_bool_decide as Ht; simpl.
  - subst t. intros -> _. right. split; [right |]; reflexivity.
  - intros [= ->] _. left. reflexivity.
Qed.

Lemma py_or_falsy a b :
  truthy (py_or a b) = false <-> truthy a = false /\ truthy b = false.
Proof.
  unfold py_or. destruct (truthy a) eqn:Ha.
  - rewrite Ha. split; [discriminate | intros [? _]; discriminate].
  - split; [intros Hb; split; [reflexivity | exact Hb] | intros [_ Hb]; exact Hb].
Qed.

Lemma truthy_Some s : truthy (Some s) = true <-> s <> "".
Proof.
  unfold truthy. case_bool_decide; simpl; split; try congruence; intros; contradiction.
Qed.

(** X14: when [configure] returns, the URL it returns is not empty and is
    the -u argument if one was given non-empty, else DAILY_SAMPLE_ROOM_URL;
    the key is resolved in the same way from -k and DAILY_API_KEY; and the
    token is the one obtained for exactly that URL and key, for 3600 seconds,
    from the API at DAILY_API_URL or, when that is unset, the default. *)
Theorem configure_returns_resolved_url
    (get_token : string -> string -> string -> Z -> exn + string)
    (args_url args_apikey : option string) (environ : gmap string string)
    (url token : string) :
  configure get_token args_url args_apikey environ = inr (url, token) ->
  url <> ""
  /\ (args_url = Some url
      \/ ((args_url = None \/ args_url = Some "")
          /\ environ !! "DAILY_SAMPLE_ROOM_URL" = Some url))
  /\ exists key,
       key <> ""
       /\ (args_apikey = Some key
           \/ ((args_apikey = None \/ args_apikey = Some "")
               /\ environ !! "DAILY_API_KEY" = Some key))
       /\ get_token key (default "https://api.daily.co/v1" (environ !! "DAILY_API_URL"))
            url 3600%Z = inr token.
Proof.
  unfold configure. cbv zeta.
  destruct (truthy (py_or args_url _)) eqn:Htu; simpl; [| discriminate].
  destruct (truthy (py_or args_apikey _)) eqn:Htk; simpl; [| discriminate].
  destruct (py_or args_url _) as [u |] eqn:Hu; [| discriminate].
  destruct (py_or args_apikey _) as [k |] eqn:Hk; [| discriminate].
  apply truthy_Some in Htu, Htk. simpl.
  unfold mbind, result_bind.
  destruct (get_token k _ u _) as [e | t] eqn:Htok; [discriminate |].
  intros [= <- <-].
  split; [exact Htu |]. split; [apply (py_or_truthy _ _ _ Hu Htu) |].
  exists k. split; [exact Htk |]. split; [apply (py_or_truthy _ _ _ Hk Htk) | exact Htok].
Qed.

Lemma configure_returns_resolved_url_witness :
  "https://example.daily.co/room" <> ""
  /\ (Some "https://example.daily.co/room" = Some "https://example.daily.co/room"
      \/ ((Some "https://example.daily.co/room" = None
           \/ Some "https://example.daily.co/room" = Some "")
          /\ ({["DAILY_SAMPLE_ROOM_URL" := "https://env.daily.co/other";
                "DAILY_API_KEY" := "k-env"]} : gmap string string)
             !! "DAILY_SAMPLE_ROOM_URL" = Some "https://example.daily.co/room")).
Proof.
  destruct (configure_returns_resolved_url (fun _ _ _ _ => inr "token")
              (Some "https://example.daily.co/room") None
              {["DAILY_SAMPLE_ROOM_URL" := "https://env.daily.co/other";
                "DAILY_API_KEY" := "k-env"]}
              "https://example.daily.co/room" "token") as (Hne & Hsrc & _).
  - vm_compute. reflexivity.
  - split; [exact Hne | exact Hsrc].
Defined.

(** X15: without a room URL (no non-empty -u and no non-empty
    DAILY_SAMPLE_ROOM_URL) [configure] raises the URL error, whatever the key
    is; with a URL but without a key it raises the key error; in neither case
    is a token asked for. *)
Theorem configure_missing_configuration
    (get_token : string -> string -> string -> Z -> exn + string)
    (args_url args_apikey : option string) (environ : gmap string string) :
  (truthy args_url = false ->
   truthy (environ !! "DAILY_SAMPLE_ROOM_URL") = false ->
   configure get_token args_url args_apikey environ = inl (OtherError no_url_message))
  /\ (truthy (py_or args_url (environ !! "DAILY_SAMPLE_ROOM_URL")) = true ->
      truthy args_apikey = false ->
      truthy (environ !! "DAILY_API_KEY") = false ->
      configure get_token args_url args_apikey environ = inl (OtherError no_key_message)).
Proof.
  split.
  - intros Ha He. assert (Hu := proj2 (py_or_falsy _ _) (conj Ha He)).
    unfold configure. cbv zeta. rewrite Hu. reflexivity.
  - intros Hu Ha He. assert (Hk := proj2 (py_or_falsy _ _) (conj Ha He)).
    unfold configure. cbv zeta. rewrite Hu, Hk. reflexivity.
Qed.

Lemma configure_missing_configuration_witness :
  configure (fun _ _ _ _ => inr "token") (Some "") (Some "k-arg") ∅
  = inl (OtherError no_url_message).
Proof.
  destruct (configure_missing_configuration (fun _ _ _ _ => inr "token")
              (Some "") (Some "k-arg") ∅) as (Hurl & _).
  apply Hurl; reflexivity.
Defined.

(** ** server.py (MedFlow): the registry of bot processes *)

Lemma dict_get_set_eq {V} (k : Z) (v : V) d : dict_get k (dict_set k v d) = Some v.
Proof.
  induction d as [| [k' v'] d IH]; simpl.
  - rewrite decide_True by reflexivity. reflexivity.
  - destruct (decide (k' = k)); simpl.
    + rewrite decide_True by reflexivity. reflexivity.
    + rewrite decide_False by assumption. exact IH.
Qed.

Lemma dict_get_set_ne {V} (k k0 : Z) (v : V) d :
  k0 <> k -> dict_get k0 (dict_set k v d) = dict_get k0 d.
Proof.
  intros Hne. induction d as [| [k' v'] d IH]; simpl.
  - rewrite decide_False by congruence. reflexivity.
  - destruct (decide (k' = k)) as [-> | Hk]; simpl.
    + destruct (decide (k = k0)); [congruence | reflexivity].
    + destruct (decide (k' = k0)); [reflexivity | exact IH].
Qed.

Lemma dict_get_None {V} (k : Z) (d : list (Z * V)) :
  dict_get k d = None <-> k ∉ (fst <$> d).
Proof.
  induction d as [| [k' v'] d IH]; simpl.
  - split; [intros _; apply not_elem_of_nil | reflexivity].
  - rewrite not_elem_of_cons. destruct (decide (k' = k)) as [-> | Hk].
    + split; [discriminate | intros [Hne _]; contradiction].
    + rewrite IH. split; [intros Hn; split; [congruence | exact Hn] | intros [_ Hn]; exact Hn].
Qed.

Lemma dict_set_keys {V} (k : Z) (v : V) d :
  fst <$> dict_set k v d
  = if decide (k ∈ (fst <$> d)) then fst <$> d else (fst <$> d) ++ [k].
Proof.
  induction d as [| [k' v'] d IH].
  - cbn [dict_set fmap list_fmap]. destruct (decide (k ∈ [])) as [Hin | _];
      [apply elem_of_nil in Hin; contradiction | reflexivity].
  - cbn [dict_set]. destruct (decide (k' = k)) as [-> | Hk].
    + rewrite !fmap_cons. cbn [fst].
      destruct (decide (k ∈ k :: (fst <$> d))) as [_ | Hn];
        [reflexivity | exfalso; apply Hn, list_elem_of_here].
    + rewrite !fmap_cons, IH. cbn [fst].
      destruct (decide (k ∈ (fst <$> d))) as [Hin | Hin];
        destruct (decide (k ∈ k' :: (fst <$> d))) as [Hin' | Hin'].
      * reflexivity.
      * exfalso. apply Hin', list_elem_of_further, Hin.
      * exfalso. apply elem_of_cons in Hin' as [Heq | Hin']; [congruence | contradiction].
      * reflexivity.
Qed.

Lemma dict_set_elem {V} (k : Z) (v : V) d (entry : Z * V) :
  entry ∈ dict_set k v d -> entry = (k, v) \/ entry ∈ d.
Proof.
  induction d as [| [k' v'] d IH]; simpl.
  - intros Hin. apply list_elem_of_singleton in Hin. left. exact Hin.
  - destruct (decide (k' = k)) as [-> | Hk]; intros Hin;
      apply elem_of_cons in Hin as [Heq | Hin].
    + left. exact Heq.
    + right. apply list_elem_of_further. exact Hin.
    + right. rewrite Heq. apply list_elem_of_here.
    + destruct (IH Hin) as [Heq | Hin']; [left; exact Heq |].
      right. apply list_elem_of_further. exact Hin'.
Qed.

Lemma dict_set_filter_length {V} (P : Z * V -> Prop) `{forall x, Decision (P x)}
    (k : Z) (v : V) d :
  length (filter P (dict_set k v d))
  <= length (filter P d) + (if decide (P (k, v)) then 1 else 0).
Proof.
  induction d as [| [k' v'] d IH]; simpl.
  - rewrite filter_cons, filter_nil. destruct (decide (P (k, v))); simpl; lia.
  - destruct (decide (k' = k)) as [-> | Hk].
    + rewrite !filter_cons.
      destruct (decide (P (k, v))), (decide (P (k, v'))); simpl; lia.
    + rewrite !filter_cons. destruct (decide (P (k', v'))); simpl; lia.
Qed.

Section BotServerProperties.

Context {Popen : Type} (pid : Popen -> Z) (poll : Popen -> option Z)
        (str_exn : exn -> string).

(** X16: [get_status] answers 404 exactly for a pid that is not a key of the
    registry; for a registered pid it reports running while [poll()] is
    [None] and finished afterwards, under the pid that was asked for. *)
Theorem get_status_reports_registered (pid0 : Z) (st : ServerState Popen) :
  ((exists detail, get_status Popen poll pid0 st = inl (HTTPException 404 detail))
   <-> pid0 ∉ (fst <$> bot_procs st))
  /\ (forall proc room_url,
        dict_get pid0 (bot_procs st) = Some (proc, room_url) ->
        (poll proc = None ->
         get_status Popen poll pid0 st = inr (JSONResponse pid0 "running"))
        /\ (forall code, poll proc = Some code ->
            get_status Popen poll pid0 st = inr (JSONResponse pid0 "finished"))).
Proof.
  unfold get_status. split.
  - rewrite <- dict_get_None. destruct (dict_get pid0 (bot_procs st)) as [proc |].
    + split; [intros [detail Hd]; discriminate | discriminate].
    + split; [reflexivity | intros _; eexists; reflexivity].
  - intros proc room_url ->. simpl. split.
    + intros ->. reflexivity.
    + intros code ->. reflexivity.
Qed.

Lemma start_agent_error_inv
    (create_room : exn + option string) (get_token : string -> exn + option string)
    (popen : string -> exn + Popen) (st : ServerState Popen) (err : HTTPError) :
  snd (start_agent Popen pid poll str_exn create_room get_token popen st) = inl err ->
  bot_procs (fst (start_agent Popen pid poll str_exn create_room get_token popen st))
  = bot_procs st
  /\ spawned (fst (start_agent Popen pid poll str_exn create_room get_token popen st))
     = spawned st.
Proof.
  unfold start_agent.
  destruct create_room as [e | room_url]; simpl; [intros _; split; reflexivity |].
  destruct (truthy room_url); simpl; [| intros _; split; reflexivity].
  case_bool_decide; simpl; [intros _; split; reflexivity |].
  destruct (get_token _) as [e | token]; simpl; [intros _; split; reflexivity |].
  destruct (truthy token); simpl; [| intros _; split; reflexivity].
  destruct (popen _) as [e | proc]; simpl; [intros _; split; reflexivity | discriminate].
Qed.

(** X17: a request to [start_agent] that ends in an error of any kind
    leaves the registry as it was and has started no process. *)
Theorem start_agent_failure_changes_nothing
    (create_room : exn + option string) (get_token : string -> exn + option string)
    (popen : string -> exn + Popen) (st : ServerState Popen) (err : HTTPError) :
  snd (start_agent Popen pid poll str_exn create_room get_token popen st) = inl err ->
  bot_procs (fst (start_agent Popen pid poll str_exn create_room get_token popen st))
  = bot_procs st
  /\ spawned (fst (start_agent Popen pid poll str_exn create_room get_token popen st))
     = spawned st.
Proof. apply start_agent_error_inv. Qed.

Lemma start_agent_redirect_inv
    (create_room : exn + option string) (get_token : string -> exn + option string)
    (popen : string -> exn + Popen) (st : ServerState Popen) (response : HTTPResult) :
  snd (start_agent Popen pid poll str_exn create_room get_token popen st) = inr response ->
  exists room_url token proc,
    create_room = inr (Some room_url) /\ room_url <> ""
    /\ bots_in_room Popen poll room_url (bot_procs st) = []
    /\ get_token room_url = inr (Some token) /\ token <> ""
    /\ popen ("python3 -m bot -u " +:+ room_url +:+ " -t " +:+ token) = inr proc
    /\ response = RedirectResponse room_url
    /\ bot_procs (fst (start_agent Popen pid poll str_exn create_room get_token popen st))
       = dict_set (pid proc) (proc, room_url) (bot_procs st)
    /\ spawned (fst (start_agent Popen pid poll str_exn create_room get_token popen st))
       = spawned st ++ ["python3 -m bot -u " +:+ room_url +:+ " -t " +:+ token].
Proof.
  unfold start_agent.
  destruct create_room as [e | room_url]; [simpl; discriminate |]. cbv zeta.
  destruct (truthy room_url) eqn:Hurl; cbn [negb]; [| simpl; discriminate].
  destruct room_url as [room_url |]; [| discriminate].
  apply truthy_Some in Hurl. cbn [default from_option id server_print bot_procs].
  case_bool_decide as Hroom; [simpl; discriminate |].
  destruct (get_token room_url) as [e | token] eqn:Htok; [simpl; discriminate |].
  destruct (truthy token) eqn:Ht; cbn [negb]; [| simpl; discriminate].
  destruct token as [token |]; [| discriminate].
  apply truthy_Some in Ht. cbn [default from_option id].
  destruct (popen _) as [e | proc] eqn:Hpopen; [simpl; discriminate |].
  cbn [snd fst bot_procs spawned]. intros Hresp. apply (inj inr) in Hresp. subst response.
  exists room_url, token, proc.
  repeat split; try assumption; try reflexivity.
  unfold MAX_BOTS_PER_ROOM in Hroom.
  destruct (bots_in_room Popen poll room_url (bot_procs st)); [reflexivity |].
  simpl in Hroom. lia.
Qed.

(** X18: [start_agent] answers with a redirect only after a room with a
    non-empty URL was created, no bot was running in that room, a non-empty
    token was obtained and the process was started; the redirect goes to the
    room, the command carries the room URL and the token, and the registry
    gets the new process under its pid and nothing else. *)
Theorem start_agent_success
    (create_room : exn + option string) (get_token : string -> exn + option string)
    (popen : string -> exn + Popen) (st : ServerState Popen) (response : HTTPResult) :
  snd (start_agent Popen pid poll str_exn create_room get_token popen st) = inr response ->
  exists room_url token proc,
    create_room = inr (Some room_url) /\ room_url <> ""
    /\ bots_in_room Popen poll room_url (bot_procs st) = []
    /\ get_token room_url = inr (Some token) /\ token <> ""
    /\ popen ("python3 -m bot -u " +:+ room_url +:+ " -t " +:+ token) = inr proc
    /\ response = RedirectResponse room_url
    /\ bot_procs (fst (start_agent Popen pid poll str_exn create_room get_token popen st))
       = dict_set (pid proc) (proc, room_url) (bot_procs st)
    /\ spawned (fst (start_agent Popen pid poll str_exn create_room get_token popen st))
       = spawned st ++ ["python3 -m bot -u " +:+ room_url +:+ " -t " +:+ token].
Proof. apply start_agent_redirect_inv. Qed.

(** X19: [start_agent] keeps the registry in order: if it held one entry per
    pid, each process under its own pid, and at most [MAX_BOTS_PER_ROOM]
    running bots in every room, it still does after the request, whether the
    request succeeds or fails and also when the new pid was already a key. *)
Theorem start_agent_preserves_registry
    (create_room : exn + option string) (get_token : string -> exn + option string)
    (popen : string -> exn + Popen) (st : ServerState Popen) :
  registry_ok Popen pid poll st ->
  registry_ok Popen pid poll
    (fst (start_agent Popen pid poll str_exn create_room get_token popen st)).
Proof.
  intros Hok.
  destruct (snd (start_agent Popen pid poll str_exn create_room get_token popen st))
    as [err | response] eqn:Hres.
  - destruct (start_agent_error_inv _ _ _ _ _ Hres) as [Hprocs _].
    unfold registry_ok. rewrite Hprocs. exact Hok.
  - destruct (start_agent_redirect_inv _ _ _ _ _ Hres)
      as (room_url & token & proc & _ & _ & Hnone & _ & _ & _ & _ & Hprocs & _).
    destruct Hok as (Hnodup & Hpid & Hlimit).
    unfold registry_ok. rewrite Hprocs. split; [| split].
    + rewrite dict_set_keys. case_decide as Hin; [exact Hnodup |].
      apply NoDup_app. split; [exact Hnodup | split].
      * intros k Hk Hk'. apply list_elem_of_singleton in Hk'. subst k. contradiction.
      * apply NoDup_singleton.
    + intros k p u Hin. apply dict_set_elem in Hin as [Heq | Hin].
      * injection Heq as -> -> ->. reflexivity.
      * apply (Hpid _ _ _ Hin).
    + intros u. unfold bots_in_room.
      etrans; [apply dict_set_filter_length |].
      case_decide as Hnew; simpl in Hnew.
      * destruct Hnew as [<- _]. unfold bots_in_room in Hnone. rewrite Hnone.
        unfold MAX_BOTS_PER_ROOM. simpl. lia.
      * specialize (Hlimit u). unfold bots_in_room in Hlimit. lia.
Qed.

(** X20: after a redirect, [get_status] of the new process's pid reports on
    that process, and the status of every other pid is what it was. *)
Theorem get_status_after_start_agent
    (create_room : exn + option string) (get_token : string -> exn + option string)
    (popen : string -> exn + Popen) (st : ServerState Popen) (room_url : string) :
  snd (start_agent Popen pid poll str_exn create_room get_token popen st)
  = inr (RedirectResponse room_url) ->
  exists proc,
    dict_get (pid proc)
      (bot_procs (fst (start_agent Popen pid poll str_exn create_room get_token popen st)))
    = Some (proc, room_url)
    /\ get_status Popen poll (pid proc)
         (fst (start_agent Popen pid poll str_exn create_room get_token popen st))
       = inr (JSONResponse (pid proc)
                match poll proc with None => "running" | Some _ => "finished" end)
    /\ forall other, other <> pid proc ->
         get_status Popen poll other
           (fst (start_agent Popen pid poll str_exn create_room get_token popen st))
         = get_status Popen poll other st.
Proof.
  intros Hres.
  destruct (start_agent_redirect_inv _ _ _ _ _ Hres)
    as (url & token & proc & _ & _ & _ & _ & _ & _ & Hresp & Hprocs & _).
  injection Hresp as ->. exists proc. unfold get_status. rewrite Hprocs.
  rewrite dict_get_set_eq. simpl. repeat split.
  intros other Hother. rewrite dict_get_set_ne by exact Hother. reflexivity.
Qed.

End BotServerProperties.

Lemma start_agent_failure_changes_nothing_witness :
  bot_procs (fst (start_agent Z id (fun _ => None) (fun _ => "error")
                    (inr (Some "")) (fun _ => inr (Some "token")) (fun _ => inr 7%Z)
                    (mkServerState [] [] [])))
  = [].
Proof.
  destruct (start_agent_failure_changes_nothing (Popen := Z) id (fun _ => None)
              (fun _ => "error") (inr (Some "")) (fun _ => inr (Some "token"))
              (fun _ => inr 7%Z) (mkServerState [] [] [])
              (HTTPException 500
                 "Failed to create room. Cannot start intake session without a valid room URL.")
              eq_refl) as (Hprocs & _).
  exact Hprocs.
Defined.

Lemma start_agent_success_witness :
  exists room_url token proc,
    (inr (Some "https://example.daily.co/r1") : exn + option string) = inr (Some room_url)
    /\ room_url <> ""
    /\ bots_in_room Z (fun _ => None) room_url [] = []
    /\ (inr (Some "tok") : exn + option string) = inr (Some token) /\ token <> ""
    /\ (inr 7%Z : exn + Z) = inr proc
    /\ RedirectResponse "https://example.daily.co/r1" = RedirectResponse room_url
    /\ bot_procs (fst (start_agent Z id (fun _ => None) (fun _ => "error")
                         (inr (Some "https://example.daily.co/r1"))
                         (fun _ => inr (Some "tok")) (fun _ => inr 7%Z)
                         (mkServerState [] [] [])))
       = dict_set (id proc) (proc, room_url) []
    /\ spawned (fst (start_agent Z id (fun _ => None) (fun _ => "error")
                       (inr (Some "https://example.daily.co/r1"))
                       (fun _ => inr (Some "tok")) (fun _ => inr 7%Z)
                       (mkServerState [] [] [])))
       = [] ++ ["python3 -m bot -u " +:+ room_url +:+ " -t " +:+ token].
Proof.
  apply (start_agent_success (Popen := Z) id (fun _ => None) (fun _ => "error")
           (inr (Some "https://example.daily.co/r1")) (fun _ => inr (Some "tok"))
           (fun _ => inr 7%Z) (mkServerState [] [] [])
           (RedirectResponse "https://example.daily.co/r1")).
  reflexivity.
Defined.

Lemma example_registry_ok : registry_ok (Z * nat) fst example_poll example_registry.
Proof.
  unfold registry_ok, example_registry. cbn [bot_procs]. split; [| split].
  - cbn. apply NoDup_cons. split; [| apply NoDup_singleton].
    intros Hin. apply list_elem_of_singleton in Hin. discriminate.
  - intros k proc room_url Hin.
    apply elem_of_cons in Hin as [Heq | Hin]; [injection Heq as -> -> ->; reflexivity |].
    apply list_elem_of_singleton in Hin. injection Hin as -> -> ->. reflexivity.
  - intros room_url. unfold bots_in_room, MAX_BOTS_PER_ROOM.
    rewrite !filter_cons, filter_nil. cbn [fst snd example_poll].
    repeat case_decide; simpl; try lia.
    all: match goal with H : _ /\ Some _ = None |- _ => destruct H; discriminate end.
Qed.

(** The invariant at a registry that is not empty, twice: a bot for the
    first room is started and gets pid 7, which is already a key (its old
    entry is replaced); and a bot for the second room, where one is running,
    is refused by the room limit. *)
Lemma start_agent_preserves_registry_witness :
  (bot_procs (fst (start_agent (Z * nat) fst example_poll (fun _ => "error")
                     (inr (Some "https://example.daily.co/r1"))
                     (fun _ => inr (Some "tok")) (fun _ => inr (7%Z, 2))
                     example_registry))
   = [(7%Z, ((7%Z, 2), "https://example.daily.co/r1"));
      (8%Z, ((8%Z, 1), "https://example.daily.co/r2"))]
   /\ registry_ok (Z * nat) fst example_poll
        (fst (start_agent (Z * nat) fst example_poll (fun _ => "error")
                (inr (Some "https://example.daily.co/r1"))
                (fun _ => inr (Some "tok")) (fun _ => inr (7%Z, 2))
                example_registry)))
  /\ (snd (start_agent (Z * nat) fst example_poll (fun _ => "error")
             (inr (Some "https://example.daily.co/r2"))
             (fun _ => inr (Some "tok")) (fun _ => inr (9%Z, 3))
             example_registry)
      = inl (HTTPException 500
               "Maximum bot limit reached for room: https://example.daily.co/r2")
      /\ registry_ok (Z * nat) fst example_poll
           (fst (start_agent (Z * nat) fst example_poll (fun _ => "error")
                   (inr (Some "https://example.daily.co/r2"))
                   (fun _ => inr (Some "tok")) (fun _ => inr (9%Z, 3))
                   example_registry))).
Proof.
  split; (split; [vm_compute; reflexivity |]).
  - apply (start_agent_preserves_registry (Popen := Z * nat) fst example_poll
             (fun _ => "error")).
    exact example_registry_ok.
  - apply (start_agent_preserves_registry (Popen := Z * nat) fst example_poll
             (fun _ => "error")).
    exact example_registry_ok.
Defined.

Lemma get_status_after_start_agent_witness :
  exists proc,
    dict_get (id proc)
      (bot_procs (fst (start_agent Z id (fun _ => None) (fun _ => "error")
                         (inr (Some "https://example.daily.co/r1"))
                         (fun _ => inr (Some "tok")) (fun _ => inr 7%Z)
                         (mkServerState [] [] []))))
    = Some (proc, "https://example.daily.co/r1").
Proof.
  destruct (get_status_after_start_agent (Popen := Z) id (fun _ => None) (fun _ => "error")
              (inr (Some "https://example.daily.co/r1")) (fun _ => inr (Some "tok"))
              (fun _ => inr 7%Z) (mkServerState [] [] [])
              "https://example.daily.co/r1" eq_refl) as (proc & Hget & _).
  exists proc. exact Hget.
Defined.

(** ** setup.py: what the setup scripts do to the files *)

Lemma str_lower_y (line : string) :
  str_lower line = "y" <-> line = "y" \/ line = "Y".
Proof.
  destruct line as [| c [| d rest]]; simpl.
  - split; [discriminate | intros [? | ?]; discriminate].
  - destruct c as [[] [] [] [] [] [] [] []]; vm_compute;
      (split; [intros H; first [discriminate H | auto]
              | intros [H | H]; first [discriminate H | reflexivity]]).
  - split; [discriminate | intros [? | ?]; discriminate].
Qed.

(** X21: [create_env_file] never replaces an existing .env unless the answer
    to its question is y or Y: with any other answer, or when the answer
    cannot be read, the files are left exactly as they were; and when there
    is no .env it asks nothing. *)
Theorem create_env_file_keeps_existing (answer : exn + string) (w : SetupWorld) :
  (is_Some (fs w !! ".env") ->
   (forall line, answer = inr line -> line <> "y" /\ line <> "Y") ->
   fs (fst (create_env_file answer w)) = fs w)
  /\ (fs w !! ".env" = None -> prompts (fst (create_env_file answer w)) = prompts w).
Proof.
  unfold create_env_file. cbv zeta. split.
  - intros Hex Hans. rewrite bool_decide_eq_true_2 by exact Hex.
    destruct answer as [e | line]; [reflexivity |].
    destruct (Hans line eq_refl) as [Hy HY].
    rewrite bool_decide_eq_true_2; [reflexivity |].
    rewrite str_lower_y. intros [? | ?]; contradiction.
  - intros Hnone. rewrite bool_decide_eq_false_2 by (rewrite Hnone; apply is_Some_None).
    case_bool_decide; [| reflexivity]. simpl. unfold shutil_copy.
    destruct (fs w !! "env.example"); reflexivity.
Qed.

Lemma create_env_file_keeps_existing_witness :
  fs (fst (create_env_file (inr "n")
             (mkSetupWorld {[".env" := [x01]%byte; "env.example" := [x02]%byte]} [] [])))
  = {[".env" := [x01]%byte; "env.example" := [x02]%byte]}.
Proof.
  destruct (create_env_file_keeps_existing (inr "n")
              (mkSetupWorld {[".env" := [x01]%byte; "env.example" := [x02]%byte]} [] []))
    as (Hkeep & _).
  apply Hkeep.
  - vm_compute. eexists. reflexivity.
  - intros line [= <-]. split; discriminate.
Defined.


Lemma py_tuple_lt_3_10 (major minor : Z) (later : list Z) :
  py_tuple_lt (major :: minor :: later) [3; 10]%Z = true
  <-> (major < 3 \/ (major = 3 /\ minor < 10))%Z.
Proof.
  cbn [py_tuple_lt].
  assert (Hnil : py_tuple_lt later [] = false) by (destruct later; reflexivity).
  rewrite Hnil.
  repeat case_bool_decide; split; intros Hlt; try lia; try discriminate; reflexivity.
Qed.

(** X23: [check_python_version] exits with status 1 exactly when the major
    and minor version are below 3.10, whatever the later fields are, and
    otherwise returns; in neither case does it touch a file. *)
Theorem check_python_version_threshold
    (major minor : Z) (later : list Z) (version : string) (w : SetupWorld) :
  (snd (check_python_version (major :: minor :: later) version w)
   = inl (OtherError "SystemExit(1)")
   <-> (major < 3 \/ (major = 3 /\ minor < 10))%Z)
  /\ (snd (check_python_version (major :: minor :: later) version w) = inr tt
      <-> (3 < major \/ (major = 3 /\ 10 <= minor))%Z)
  /\ fs (fst (check_python_version (major :: minor :: later) version w)) = fs w.
Proof.
  unfold check_python_version.
  pose proof (py_tuple_lt_3_10 major minor later) as Hlt.
  destruct (py_tuple_lt (major :: minor :: later) [3; 10]%Z); simpl.
  - assert (Hold : (major < 3 \/ (major = 3 /\ minor < 10))%Z) by (apply Hlt; reflexivity).
    split; [split; [intros _; exact Hold | reflexivity] |].
    split; [split; [discriminate | lia] | reflexivity].
  - assert (Hnew : ~ (major < 3 \/ (major = 3 /\ minor < 10))%Z)
      by (intros Hold; apply Hlt in Hold; discriminate).
    split; [split; [discriminate | intros Hold; contradiction] |].
    split; [split; [intros _; lia | reflexivity] | reflexivity].
Qed.

(** X24: [create_streams_xml] treats templates/streams.xml as
    [create_env_file] treats .env: an existing file is kept unless the answer
    is y or Y, and the only change it ever makes is to set that file to the
    content of the template. *)
Theorem create_streams_xml_only_copies_template (answer : exn + string) (w : SetupWorld) :
  (is_Some (fs w !! "templates/streams.xml") ->
   (forall line, answer = inr line -> line <> "y" /\ line <> "Y") ->
   fs (fst (create_streams_xml answer w)) = fs w)
  /\ (fs (fst (create_streams_xml answer w)) = fs w
      \/ exists template, fs w !! "templates/streams.xml.template" = Some template
           /\ fs (fst (create_streams_xml answer w))
              = <["templates/streams.xml" := template]> (fs w)).
Proof.
  unfold create_streams_xml. cbv zeta. split.
  - intros Hex Hans. rewrite bool_decide_eq_true_2 by exact Hex.
    destruct answer as [e | line]; [reflexivity |].
    destruct (Hans line eq_refl) as [Hy HY].
    rewrite bool_decide_eq_true_2; [reflexivity |].
    rewrite str_lower_y. intros [? | ?]; contradiction.
  - assert (Hcopy : forall w0 : SetupWorld,
              fs (shutil_copy "templates/streams.xml.template" "templates/streams.xml" w0)
              = fs w0
              \/ exists template,
                   fs w0 !! "templates/streams.xml.template" = Some template
                   /\ fs (shutil_copy "templates/streams.xml.template"
                            "templates/streams.xml" w0)
                      = <["templates/streams.xml" := template]> (fs w0)).
    { intros w0. unfold shutil_copy.
      destruct (fs w0 !! "templates/streams.xml.template") as [data |] eqn:Hd.
      - right. exists data. split; reflexivity.
      - left. reflexivity. }
    destruct (bool_decide (is_Some (fs w !! "templates/streams.xml"))).
    + destruct answer as [e | line]; [left; reflexivity |].
      case_bool_decide; [left; reflexivity |].
      case_bool_decide; [| left; reflexivity]. simpl;
        match goal with
        | |- context [shutil_copy _ _ ?w0] =>
            destruct (Hcopy w0) as [Hl | (t & Ht & Hr)];
            [left; exact Hl | right; exists t; split; [exact Ht | exact Hr]]
        end.
    + case_bool_decide; [| left; reflexivity]. simpl;
        match goal with
        | |- context [shutil_copy _ _ ?w0] =>
            destruct (Hcopy w0) as [Hl | (t & Ht & Hr)];
            [left; exact Hl | right; exists t; split; [exact Ht | exact Hr]]
        end.
Qed.

Lemma create_streams_xml_only_copies_template_witness :
  fs (fst (create_streams_xml (inr "no")
             (mkSetupWorld {["templates/streams.xml" := [x01]%byte]} [] [])))
  = {["templates/streams.xml" := [x01]%byte]}.
Proof.
  destruct (create_streams_xml_only_copies_template (inr "no")
              (mkSetupWorld {["templates/streams.xml" := [x01]%byte]} [] []))
    as (Hkeep & _).
  apply Hkeep.
  - vm_compute. eexists. reflexivity.
  - intros line [= <-]. split; discriminate.
Defined.
